(** * The block editor surface: focus tracking, change and paste handlers,
      plugin list and node rendering of [BlockEditor/Editor.js]

    The React component is embedded shallowly.  Props and the Slate value are
    records, the Slate document is a keyed rose tree, and every callback the
    component invokes ([onLoading], [onPatch], [onChange], [next], the DOM
    scroll, ...) is recorded in an ordered trace, so a method is a function
    into a small trace-and-exception monad. *)

From Stdlib Require Import String List Bool Arith Lia.
Import ListNotations.
Set Warnings "-register-all".
Open Scope string_scope.
Open Scope list_scope.

(** ** JavaScript results: a value or a thrown exception *)

Module Js.

Inductive JsError : Type :=
| TypeError                 (* property access on undefined or null *)
| Error (message : string). (* [throw new Error(message)] *)

Inductive result (A : Type) : Type :=
| Ok (a : A)
| Throw (e : JsError).
Arguments Ok {A} a.
Arguments Throw {A} e.

Definition rbind {A B} (r : result A) (f : A -> result B) : result B :=
  match r with
  | Ok a => f a
  | Throw e => Throw e
  end.

(** [xs.filter(p)] where the predicate may throw: the first exception, in
    the order of the elements, aborts the whole call. *)
Fixpoint filterR {A} (p : A -> result bool) (xs : list A) : result (list A) :=
  match xs with
  | [] => Ok []
  | x :: rest =>
      rbind (p x) (fun keep =>
      rbind (filterR p rest) (fun kept =>
      Ok (if keep then x :: kept else kept)))
  end.

(** Template-literal rendering of a possibly undefined string. *)
Definition show (s : option string) : string :=
  match s with
  | Some s => s
  | None => "undefined"
  end.

End Js.
Import Js.

(** ** Paths *)

Module Paths.

(** A path segment is a key reference [{_key}] or a field name. *)
Inductive PathSegment : Type :=
| KeySeg (_key : string)
| FieldSeg (name : string).

Definition Path := list PathSegment.

Definition segment_eqb (a b : PathSegment) : bool :=
  match a, b with
  | KeySeg x, KeySeg y => String.eqb x y
  | FieldSeg x, FieldSeg y => String.eqb x y
  | _, _ => false
  end.

Fixpoint path_eqb (p q : Path) : bool :=
  match p, q with
  | [], [] => true
  | a :: p', b :: q' => segment_eqb a b && path_eqb p' q'
  | _, _ => false
  end.

(** An array held in a prop is an object: it has an identity next to its
    contents.  Two arrays built separately have different identities even
    when they hold the same segments. *)
Record PathObject : Type := { identity : nat; segments : Path }.

(** lodash [isEqual] on a possibly undefined path: deep comparison of the
    contents, whatever the identities. *)
Definition isEqual (a b : option PathObject) : bool :=
  match a, b with
  | None, None => true
  | Some x, Some y => path_eqb (segments x) (segments y)
  | _, _ => false
  end.

(** [path[i]]: [None] is [undefined]. *)
Definition at_index (p : Path) (i : nat) : option PathSegment := nth_error p i.

(** Truthiness of [path[i]]: an object is truthy, a string is truthy unless
    empty, [undefined] is falsy. *)
Definition truthy (s : option PathSegment) : bool :=
  match s with
  | Some (KeySeg _) => true
  | Some (FieldSeg name) => negb (String.eqb name "")
  | None => false
  end.

(** [path[i] === 'name'] *)
Definition is_field (s : option PathSegment) (name : string) : bool :=
  match s with
  | Some (FieldSeg n) => String.eqb n name
  | _ => false
  end.

(** [segment._key] on a segment that is there: a string has no [_key]. *)
Definition seg_key (s : PathSegment) : option string :=
  match s with
  | KeySeg k => Some k
  | FieldSeg _ => None
  end.

(** [path[i]._key]: reading [_key] off [undefined] throws. *)
Definition key_of (s : option PathSegment) : result (option string) :=
  match s with
  | Some seg => Ok (seg_key seg)
  | None => Throw TypeError
  end.

(** [a === b] on possibly undefined strings. *)
Definition strict_eq (a b : option string) : bool :=
  match a, b with
  | Some x, Some y => String.eqb x y
  | None, None => true
  | _, _ => false
  end.

End Paths.
Import Paths.

(** ** The Slate document tree *)

Module Slate.

Inductive ObjectKind : Type := document | block | inline | text.

Definition ObjectKind_eqb (a b : ObjectKind) : bool :=
  match a, b with
  | document, document | block, block | inline, inline | text, text => true
  | _, _ => false
  end.

(** An entry of a span's [annotations] object: [annotations[name]._key] is
    the key of the markDef it refers to. *)
Record Annotation : Type := { ann_key : string; ann_type : string }.

(** [node.data]: [data.get('_key')] and [data.get('annotations')]; the
    annotations object keeps its properties in insertion order. *)
Record Data : Type := {
  data_key : option string;
  annotations : option (list (string * Annotation))
}.

Inductive SlateNode : Type :=
| Node (key : string) (object : ObjectKind) (type : string) (data : Data)
       (nodes : list SlateNode).

Definition key (n : SlateNode) : string :=
  match n with Node k _ _ _ _ => k end.
Definition object (n : SlateNode) : ObjectKind :=
  match n with Node _ o _ _ _ => o end.
Definition type (n : SlateNode) : string :=
  match n with Node _ _ t _ _ => t end.
Definition data (n : SlateNode) : Data :=
  match n with Node _ _ _ d _ => d end.
Definition nodes (n : SlateNode) : list SlateNode :=
  match n with Node _ _ _ _ cs => cs end.

(** All descendants of a node, in document order (the node itself left
    out), as [forEachDescendant] visits them. *)
Fixpoint descendants (n : SlateNode) : list SlateNode :=
  match n with
  | Node _ _ _ _ cs =>
      (fix over (l : list SlateNode) : list SlateNode :=
         match l with
         | [] => []
         | c :: rest => c :: descendants c ++ over rest
         end) cs
  end.

(** [node.getDescendant(key)]: the descendant carrying that key, or null.
    An undefined key names no node. *)
Definition getDescendant (n : SlateNode) (k : option string) : option SlateNode :=
  match k with
  | Some k => find (fun d => String.eqb (key d) k) (descendants n)
  | None => None
  end.

(** [node.getParent(key)]: the node, [n] itself or one below it, that has
    the node with that key among its children; null when there is none. *)
Definition getParent (n : SlateNode) (k : string) : option SlateNode :=
  find (fun p => existsb (fun c => String.eqb (key c) k) (nodes p))
       (n :: descendants n).

Record Point : Type := { point_key : string; offset : nat }.
Record Selection : Type := { anchor : Point; focus : Point }.

(** [editor.value] / the [editorValue] prop. *)
Record SlateValue : Type := {
  value_document : SlateNode;
  selection : Selection;
  focusBlock : option SlateNode;
  focusInline : option SlateNode;
  focusText : option SlateNode
}.

Record SlateEditor : Type := { value : SlateValue }.

End Slate.
Import Slate.

(** Modelled from the spec: the test [utils/findInlineByAnnotationKey] applies
    to a span is not among the sources.  The spec has it look for a span
    "whose resolved annotation set contains" the annotation key: one of the
    entries of the span's [annotations] has that key as its [_key]. *)
Definition carries (annotationKey : option string) (n : SlateNode) : bool :=
  match annotations (data n) with
  | Some anns =>
      existsb (fun entry => strict_eq (Some (ann_key (snd entry))) annotationKey) anns
  | None => false
  end.

(** Modelled from the spec: [utils/findInlineByAnnotationKey] is not among the
    sources.  The spec has it scan the span descendants of the block for a
    span that carries the annotation and return the first such span, or
    nothing when no span carries it.  A block that is not there has no spans. *)
Definition findInlineByAnnotationKey
    (annotationKey : option string) (blk : option SlateNode) : option SlateNode :=
  match blk with
  | Some b =>
      find (fun d => String.eqb (type d) "span" && carries annotationKey d)
           (descendants b)
  | None => None
  end.

(** ** Structured values, schema, patches *)

(** A persisted block record; only the fields the component reads. *)
Record FormBuilderValue : Type := { _key : string; _type : string }.

(** A schema type ([Type] of the type definitions), looked up by name. *)
Record SchemaType : Type := { name : string }.

Record Decorator : Type := {
  title : string;
  decorator_value : string;
  has_custom_render : bool   (* [decorator.blockEditor.render] is there *)
}.

Record BlockContentTypes : Type := {
  blockObjects : list SchemaType;
  inlineObjects : list SchemaType;
  span : SchemaType
}.

Record BlockContentFeatures : Type := {
  decorators : list Decorator;
  types : BlockContentTypes
}.

Record Marker : Type := {
  marker_path : Path;
  marker_type : string;
  level : option string
}.

(** The undo/redo stack is handed over by reference. *)
Record UndoRedoStack : Type := { stack_ref : nat }.

Inductive SyntheticEvent : Type := ClipboardEvent (clipboard : string).

Module Patches.

Inductive Position : Type := before | after | replace.

(** Modelled from the spec: the values a patch operation inserts are not
    typed among the sources.  The spec has an operation "insert X", X being a
    structured block; the builder takes an array of any values, so an item is
    a block or, when an array is put where a block is expected, that array. *)
Inductive PatchItem : Type :=
| OneBlock (b : FormBuilderValue)
| BlockArray (bs : list FormBuilderValue).

(** Modelled from the spec: the patch operations of [PatchEvent] are not among
    the sources.  The spec describes one as "insert X after path Y": the
    items inserted, one per value, the position and the path, which is what
    the caller passes and can be undefined. *)
Record Patch : Type := {
  items : list PatchItem;
  position : Position;
  path : option Path
}.

(** Modelled from the spec: the [insert] builder of [PatchEvent] is not among
    the sources; it makes the "insert X after path Y" operation of its three
    arguments. *)
Definition insert (its : list PatchItem) (pos : Position)
    (p : option Path) : Patch :=
  {| items := its; position := pos; path := p |}.

(** The operation the spec describes for a payload of blocks: each block of
    the payload is an item. *)
Definition insert_blocks (blocks : list FormBuilderValue) (pos : Position)
    (p : option Path) : Patch :=
  insert (map OneBlock blocks) pos p.

(** Modelled from the spec: [PatchEvent] is not among the sources.  The patch
    sink "accepts a sequence of patch operations": an event holds one. *)
Record PatchEvent : Type := { patches : list Patch }.

(** Modelled from the spec: [PatchEvent.from] is not among the sources; it
    makes the event of the sequence of operations it is given. *)
Definition PatchEvent_from (ps : list Patch) : PatchEvent := {| patches := ps |}.

End Patches.
Import Patches.

(** ** Props and the component instance *)

(** What the paste interceptor receives, [{event, value, path, type}], and
    what it answers, [{insert, path}], either field possibly missing; the
    interceptor may also answer nothing at all. *)
Record PasteArgs : Type := {
  args_event : SyntheticEvent;
  args_value : option (list FormBuilderValue);
  args_path : Path;
  args_type : SchemaType
}.

Record PasteResult : Type := {
  result_insert : option (list FormBuilderValue);
  result_path : option Path
}.

Definition PasteInterceptor := PasteArgs -> option PasteResult.

(** The props that carry data.  The callback props ([onChange], [onFocus],
    [onLoading], [onPatch], [setFocus]) belong to the owner of the component;
    calling one is an [Effect] below. *)
Record Props : Type := {
  blockContentFeatures : BlockContentFeatures;
  editorValue : SlateValue;
  fullscreen : bool;
  focusPath : option PathObject;
  markers : list Marker;
  onPaste : option PasteInterceptor;
  readOnly : bool;
  schemaType : SchemaType;          (* the [type] prop *)
  undoRedoStack : UndoRedoStack;
  userIsWritingText : bool;
  persisted : option (list FormBuilderValue)   (* the [value] prop *)
}.

(** [() => onFocus(path)], the completion callback handed to [onChange]. *)
Inductive Callback : Type := FocusCallback (p : Path).

(** [onLoading({paste: status})] *)
Record LoadingProps : Type := { paste : option string }.

Inductive Effect : Type :=
| ScrollIntoView (node : SlateNode)
| OnLoading (p : LoadingProps)
| InterceptPaste (args : PasteArgs)
| OnPatch (ev : PatchEvent)
| Next
| OnChange (editor : SlateEditor) (callback : option Callback)
| OnFocus (p : Path)
| SetFocus.

(** ** Methods: a trace of effects and a result or an exception *)

Module Method.

Definition M (A : Type) : Type := (list Effect * result A)%type.

Definition ret {A} (a : A) : M A := ([], Ok a).
Definition throw {A} (e : JsError) : M A := ([], Throw e).
Definition emit (e : Effect) : M unit := ([e], Ok tt).
Definition lift {A} (r : result A) : M A := ([], r).

Definition bind {A B} (m : M A) (f : A -> M B) : M B :=
  match m with
  | (t, Ok a) => let (t', r) := f a in (t ++ t', r)
  | (t, Throw e) => (t, Throw e)
  end.

Definition trace {A} (m : M A) : list Effect := fst m.
Definition outcome {A} (m : M A) : result A := snd m.

End Method.
Import Method.

Declare Scope method_scope.
Delimit Scope method_scope with method.
Notation "x <- m ;; k" := (bind m (fun x => k))
  (at level 61, m at next level, right associativity) : method_scope.
Notation "m ;; k" := (bind m (fun _ => k))
  (at level 61, right associativity) : method_scope.
Open Scope method_scope.

(** The nodes a trace scrolls into view, in order. *)
Fixpoint scrolled (t : list Effect) : list SlateNode :=
  match t with
  | [] => []
  | ScrollIntoView n :: rest => n :: scrolled rest
  | _ :: rest => scrolled rest
  end.

(** ** The plugin list *)

(** [EDITOR_DEFAULT_BLOCK_TYPE] of block-tools: a node type with its data. *)
Record DefaultBlockType : Type := { default_type : string; default_style : string }.

(** One constructor per plugin factory called by the component's constructor,
    with the configuration it is called with.  The paste plugin also receives
    the editor ref, [props.onChange] and [handlePasteProgress], which are the
    instance's own and carry no data. *)
Inductive Plugin : Type :=
| QueryPlugin
| ListItemOnEnterKeyPlugin (defaultBlock : DefaultBlockType)
| ListItemOnTabKeyPlugin
| ToggleListItemPlugin
| TextBlockOnEnterKeyPlugin (defaultBlock : DefaultBlockType)
| SetMarksOnKeyComboPlugin (decorator_names : list string)
| SoftBreakPlugin (onlyIn : list string) (shift : bool)
| PastePlugin (blockContentType : SchemaType) (features : BlockContentFeatures)
| insertBlockOnEnter (defaultBlock : DefaultBlockType)
| OnDropPlugin
| SetBlockStylePlugin
| ToggleAnnotationPlugin
| ExpandToWordPlugin
| WrapSpanPlugin
| InsertInlineObjectPlugin (blockContentType : SchemaType)
| InsertBlockObjectPlugin
| UndoRedoPlugin (stack : UndoRedoStack)
| FireFoxVoidNodePlugin.

(** The component instance: its props, the editor ref ([_editor.current],
    null until the Slate editor is mounted) and the plugin list. *)
Record Instance : Type := {
  props : Props;
  _editor : option SlateEditor;
  _plugins : list Plugin
}.

Section Component.

(** Values imported from outside the component's file: the default block
    type of block-tools and the optional paste part. *)
Variable EDITOR_DEFAULT_BLOCK_TYPE : DefaultBlockType.
Variable onPasteFromPart : option PasteInterceptor.

Definition constructor (p : Props) : Instance :=
  {| props := p;
     _editor := None;
     _plugins :=
       [ QueryPlugin;
         ListItemOnEnterKeyPlugin EDITOR_DEFAULT_BLOCK_TYPE;
         ListItemOnTabKeyPlugin;
         ToggleListItemPlugin;
         TextBlockOnEnterKeyPlugin EDITOR_DEFAULT_BLOCK_TYPE;
         SetMarksOnKeyComboPlugin
           (map decorator_value (decorators (blockContentFeatures p)));
         SoftBreakPlugin [default_type EDITOR_DEFAULT_BLOCK_TYPE] true;
         PastePlugin (schemaType p) (blockContentFeatures p);
         insertBlockOnEnter EDITOR_DEFAULT_BLOCK_TYPE;
         OnDropPlugin;
         SetBlockStylePlugin;
         ToggleAnnotationPlugin;
         ExpandToWordPlugin;
         WrapSpanPlugin;
         InsertInlineObjectPlugin (schemaType p);
         InsertBlockObjectPlugin;
         UndoRedoPlugin (undoRedoStack p);
         FireFoxVoidNodePlugin ] |}.

Definition getEditor (this : Instance) : option SlateEditor := _editor this.

Definition scrollIntoView (node : SlateNode) : M unit := emit (ScrollIntoView node).

(** Select the block according to the focus path and scroll there. *)
Definition trackFocusPath (this : Instance) : M unit :=
  let editorValue := editorValue (props this) in
  match getEditor this, focusPath (props this) with
  | Some _, Some focusPathObject =>
      let focusPath := segments focusPathObject in
      let focusPathIsSingleBlock :=
        match focusBlock editorValue with
        | Some fb => path_eqb focusPath [KeySeg (key fb)]
        | None => false
        end in
      blockKey <- lift (key_of (at_index focusPath 0)) ;;
      let blk := getDescendant (value_document editorValue) blockKey in
      if focusPathIsSingleBlock then ret tt
      else if truthy (at_index focusPath 1)
              && is_field (at_index focusPath 1) "children"
              && truthy (at_index focusPath 2)
      then
        (* Inline object *)
        childKey <- lift (key_of (at_index focusPath 2)) ;;
        match getDescendant (value_document editorValue) childKey with
        | None =>
            throw (Error ("Could not find a inline with key " ++ show childKey
                          ++ ", something is amiss."))
        | Some inlineNode => scrollIntoView inlineNode
        end
      else
        (* Annotation: the assignment inside the condition *)
        annotated <-
          (if truthy (at_index focusPath 1)
              && is_field (at_index focusPath 1) "markDefs"
              && truthy (at_index focusPath 2)
           then
             annotationKey <- lift (key_of (at_index focusPath 2)) ;;
             ret (findInlineByAnnotationKey annotationKey blk)
           else ret None) ;;
        match annotated with
        | Some inlineNode => scrollIntoView inlineNode
        | None =>
            match blk with
            | Some b => scrollIntoView b   (* Regular block *)
            | None => ret tt
            end
        end
  | _, _ => ret tt
  end.

Definition componentDidMount (this : Instance) : M unit := trackFocusPath this.

Definition componentDidUpdate (this : Instance) (prevProps : Props) : M unit :=
  match getEditor this with
  | None => ret tt
  | Some _ =>
      match focusPath (props this) with
      | None => ret tt
      | Some fp =>
          if Nat.eqb (length (segments fp)) 0 then ret tt
          else
            let focusPathChanged :=
              negb (isEqual (focusPath prevProps) (focusPath (props this))) in
            if negb focusPathChanged then ret tt
            else trackFocusPath this
      end
  end.

(** The life of one mounted component: [componentDidMount] on the first
    render, then one [componentDidUpdate] per re-render, each with the props
    of the render before it.  An exception ends the run. *)
Fixpoint rerenders (prevProps : Props) (renders : list Instance) : M unit :=
  match renders with
  | [] => ret tt
  | this :: later =>
      componentDidUpdate this prevProps ;; rerenders (props this) later
  end.

Definition lifecycle (mounted : Instance) (renders : list Instance) : M unit :=
  componentDidMount mounted ;; rerenders (props mounted) renders.

(** How many re-renders of a run come with a focus path that differs, by
    value, from the one of the render before. *)
Fixpoint changes (prevProps : Props) (renders : list Instance) : nat :=
  match renders with
  | [] => 0
  | this :: later =>
      (if isEqual (focusPath prevProps) (focusPath (props this)) then 0 else 1)
      + changes (props this) later
  end.

(** When the user changes the selection in the editor, update the focus
    path accordingly. *)
Definition handleChange (this : Instance) (editor : SlateEditor) : M unit :=
  let path :=
    match focusBlock (value editor) with
    | Some fb => [KeySeg (key fb)]
    | None => []
    end in
  if negb (Nat.eqb (length path) 0)
     && match focusPath (props this) with
        | Some fp => Nat.eqb (length (segments fp)) 1
        | None => false
        end
  then emit (OnChange editor (Some (FocusCallback path)))
  else emit (OnChange editor None).

(** What the owner's [onChange] does when it runs the callback it got. *)
Definition run_callback (c : Callback) : M unit :=
  match c with FocusCallback p => emit (OnFocus p) end.

Definition handleEditorFocus (this : Instance) : M unit := emit SetFocus.

Definition getValue (this : Instance) : option (list FormBuilderValue) :=
  persisted (props this).

Definition handlePasteProgress (this : Instance) (status : option string) : M unit :=
  emit (OnLoading {| paste := status |}).

(** What [handlePaste] returns: the inserted payload, or whatever [next]
    returned. *)
Inductive PasteReturn : Type :=
| Inserted (blocks : list FormBuilderValue)
| ReturnedByNext.

Definition next : M PasteReturn := emit Next ;; ret ReturnedByNext.

(** The path of the current selection, as [handlePaste] builds it for the
    interceptor: the focus block, then the focused child when the focus is
    in an inline or a text. *)
Definition selectionPath (v : SlateValue) : Path :=
  let path :=
    match focusBlock v with
    | Some fb => [KeySeg (key fb)]
    | None => []
    end in
  match focusInline v, focusText v with
  | None, None => path
  | _, _ => path ++ [FieldSeg "children"; KeySeg (point_key (focus (selection v)))]
  end.

Definition pasteArgs (this : Instance) (event : SyntheticEvent)
    (editor : SlateEditor) : PasteArgs :=
  {| args_event := event;
     args_value := persisted (props this);
     args_path := selectionPath (value editor);
     args_type := schemaType (props this) |}.

(** [this.props.onPaste || onPasteFromPart] *)
Definition pasteInterceptor (this : Instance) : option PasteInterceptor :=
  match onPaste (props this) with
  | Some f => Some f
  | None => onPasteFromPart
  end.

Definition handlePaste (this : Instance) (event : SyntheticEvent)
    (editor : SlateEditor) : M PasteReturn :=
  match pasteInterceptor this with
  | None => next
  | Some onPaste =>
      emit (OnLoading {| paste := Some "start" |}) ;;
      let args := pasteArgs this event editor in
      emit (InterceptPaste args) ;;
      let result := onPaste args in
      match result with
      | Some {| result_insert := Some payload; result_path := resultPath |} =>
          (* result.path || focusPath *)
          let target :=
            match resultPath with
            | Some p => Some p
            | None => option_map segments (focusPath (props this))
            end in
          (* insert([result.insert], 'after', ...): the payload, itself an
             array, is the one element of the items array *)
          emit (OnPatch (PatchEvent_from [insert [BlockArray payload] after target])) ;;
          emit (OnLoading {| paste := None |}) ;;
          ret (Inserted payload)
      | _ =>
          emit (OnLoading {| paste := None |}) ;;
          next
      end
  end.

End Component.

(** ** Rendering a node *)

(** What Slate hands to [renderNode]. *)
Record SlateComponentProps : Type := {
  node : SlateNode;
  editor : SlateEditor;
  isFocused : bool
}.

Inductive ObjectClass : Type := BlockObject | InlineObject.

(** The element [renderNode] returns: the component chosen and the props it
    gets that depend on the node. *)
Inductive View : Type :=
| ContentBlock (blk : option FormBuilderValue) (attached : list Marker)
               (n : SlateNode)
| Span (attached : list Marker) (n : SlateNode) (spanType : SchemaType)
| ObjectView (class : ObjectClass) (isSelected : bool) (attached : list Marker)
             (n : SlateNode) (objectType : option SchemaType).

Definition view_markers (v : View) : list Marker :=
  match v with
  | ContentBlock _ ms _ => ms
  | Span ms _ _ => ms
  | ObjectView _ _ ms _ _ => ms
  end.

Section Rendering.

(** block-tools and the serialisation of a Slate node are outside the
    component: [node.toJSON(VALUE_TO_JSON_OPTS)] and
    [editorValueToBlocks({document: {nodes}}, type)]. *)
Variable JsonNode : Type.
Variable toJSON : SlateNode -> JsonNode.
Variable editorValueToBlocks : list JsonNode -> SchemaType -> list FormBuilderValue.

(** [marker.path[2] && marker.path[2]._key === node.data.get('_key')] *)
Definition targets_child (n : SlateNode) (marker : Marker) : bool :=
  truthy (at_index (marker_path marker) 2)
  && match at_index (marker_path marker) 2 with
     | Some seg => strict_eq (seg_key seg) (data_key (data n))
     | None => false
     end.

(** [marker.path[0]._key === block.key && marker.path[1] === 'markDefs' &&
    marker.path[2]._key === annotations[key]._key], left to right. *)
Definition targets_annotation (parent : option SlateNode) (a : Annotation)
    (marker : Marker) : result bool :=
  rbind (key_of (at_index (marker_path marker) 0)) (fun k0 =>
  rbind (match parent with
         | Some b => Ok (key b)
         | None => Throw TypeError
         end) (fun blockKey =>
  if strict_eq k0 (Some blockKey)
  then if is_field (at_index (marker_path marker) 1) "markDefs"
       then rbind (key_of (at_index (marker_path marker) 2)) (fun k2 =>
            Ok (strict_eq k2 (Some (ann_key a))))
       else Ok false
  else Ok false)).

(** [Object.keys(annotations).forEach(key => markers = markers.concat(...))] *)
Fixpoint add_annotation_markers (all : list Marker) (parent : option SlateNode)
    (anns : list (string * Annotation)) (acc : list Marker) : result (list Marker) :=
  match anns with
  | [] => Ok acc
  | (_, a) :: rest =>
      rbind (filterR (targets_annotation parent a) all) (fun found =>
      add_annotation_markers all parent rest (acc ++ found))
  end.

(** [markers] after the first [if]: the markers of an inline node by its
    [_key], none for any other node. *)
Definition markers_by_key (this : Instance) (n : SlateNode) : list Marker :=
  if ObjectKind_eqb (object n) inline
  then filter (targets_child n) (markers (props this))
  else [].

(** The [markers] variable of [renderNode] once the two [if]s have run: the
    markers of an inline node by its [_key]; for a span the same, then the
    markers of each annotation it carries; none for any other node. *)
Definition attached_markers (this : Instance) (p : SlateComponentProps)
  : result (list Marker) :=
  let pr := props this in
  let n := node p in
  let ms := markers_by_key this n in
  if String.eqb (type n) "span"
  then
    let ms := filter (targets_child n) (markers pr) in
    (* Add any markers for related markDefs here as well *)
    match annotations (data n) with
    | Some anns =>
        let parent := getParent (value_document (value (editor p))) (key n) in
        add_annotation_markers (markers pr) parent anns ms
    | None => Ok ms
    end
  else Ok ms.

Definition renderNode (this : Instance) (p : SlateComponentProps) : result View :=
  let pr := props this in
  let n := node p in
  let isInline := ObjectKind_eqb (object n) inline in
  let objectTypes :=
    if isInline then inlineObjects (types (blockContentFeatures pr))
    else blockObjects (types (blockContentFeatures pr)) in
  let class := if isInline then InlineObject else BlockObject in
  let objectType :=
    find (fun memberType => String.eqb (name memberType) (type n)) objectTypes in
  rbind (attached_markers this p) (fun ms =>
    if String.eqb (type n) "contentBlock" then
      Ok (ContentBlock
            (match persisted pr with
             | Some blocks => find (fun b => String.eqb (_key b) (key n)) blocks
             | None => hd_error (editorValueToBlocks [toJSON n] (schemaType pr))
             end)
            ms n)
    else if String.eqb (type n) "span" then
      Ok (Span ms n (span (types (blockContentFeatures pr))))
    else
      Ok (ObjectView class (isFocused p) ms n objectType)).

(** A marker path that the annotation test can read without running off its
    end: not empty, and not cut short right after the field name. *)
Definition marker_wf (m : Marker) : Prop :=
  marker_path m <> [] /\ length (marker_path m) <> 2.

End Rendering.

(** ** The registration order in the words of the specification *)

Inductive PluginRole : Type :=
| QuerySelectionTracking
| ListEnterHandling
| ListTabHandling
| ListToggle
| GenericEnterHandling
| MarkHotkeyHandling
| SoftBreak
| PasteInterception
| BlockInsertOnEnter
| DropHandling
| BlockStyleSetting
| AnnotationToggling
| WordExpansion
| SpanWrapping
| InlineObjectInsertion
| BlockObjectInsertion
| UndoRedo
| VoidNodeCompatibilityShim.

(** What each plugin factory of the source is for. *)
Definition role (pl : Plugin) : PluginRole :=
  match pl with
  | QueryPlugin => QuerySelectionTracking
  | ListItemOnEnterKeyPlugin _ => ListEnterHandling
  | ListItemOnTabKeyPlugin => ListTabHandling
  | ToggleListItemPlugin => ListToggle
  | TextBlockOnEnterKeyPlugin _ => GenericEnterHandling
  | SetMarksOnKeyComboPlugin _ => MarkHotkeyHandling
  | SoftBreakPlugin _ _ => SoftBreak
  | PastePlugin _ _ => PasteInterception
  | insertBlockOnEnter _ => BlockInsertOnEnter
  | OnDropPlugin => DropHandling
  | SetBlockStylePlugin => BlockStyleSetting
  | ToggleAnnotationPlugin => AnnotationToggling
  | ExpandToWordPlugin => WordExpansion
  | WrapSpanPlugin => SpanWrapping
  | InsertInlineObjectPlugin _ => InlineObjectInsertion
  | InsertBlockObjectPlugin => BlockObjectInsertion
  | UndoRedoPlugin _ => UndoRedo
  | FireFoxVoidNodePlugin => VoidNodeCompatibilityShim
  end.

(** The order as the specification lists it, highest priority first. *)
Definition spec_registration_order : list PluginRole :=
  [ QuerySelectionTracking; ListEnterHandling; ListTabHandling; ListToggle;
    GenericEnterHandling; MarkHotkeyHandling; SoftBreak; PasteInterception;
    BlockInsertOnEnter; DropHandling; BlockStyleSetting; AnnotationToggling;
    WordExpansion; SpanWrapping; InlineObjectInsertion; BlockObjectInsertion;
    UndoRedo; VoidNodeCompatibilityShim ].

(** ** A small document to run the component on

    Two text blocks.  Block [B] holds a span that carries the annotation [A]
    (a link) and an inline image; block [B2] holds a plain span. *)

Module Fixture.

Definition noData : Data := {| data_key := None; annotations := None |}.
Definition keyed (k : string) : Data := {| data_key := Some k; annotations := None |}.

Definition textT1 : SlateNode := Node "T1" text "" noData [].
Definition textT2 : SlateNode := Node "T2" text "" noData [].
Definition textT3 : SlateNode := Node "T3" text "" noData [].

Definition linkA : Annotation := {| ann_key := "A"; ann_type := "link" |}.

Definition spanS1 : SlateNode :=
  Node "S1" inline "span"
       {| data_key := Some "S1"; annotations := Some [("link", linkA)] |}
       [textT1].
Definition imageI1 : SlateNode := Node "I1" inline "image" (keyed "I1") [textT2].
Definition blockB : SlateNode :=
  Node "B" block "contentBlock" (keyed "B") [spanS1; imageI1].

Definition spanS3 : SlateNode := Node "S3" inline "span" (keyed "S3") [textT3].
Definition blockB2 : SlateNode := Node "B2" block "contentBlock" (keyed "B2") [spanS3].

Definition doc : SlateNode := Node "doc" document "" noData [blockB; blockB2].

Definition caretIn (k : string) : Selection :=
  {| anchor := {| point_key := k; offset := 0 |};
     focus := {| point_key := k; offset := 0 |} |}.

(** The caret is in the text of the first span of block [B]. *)
Definition val : SlateValue :=
  {| value_document := doc;
     selection := caretIn "T1";
     focusBlock := Some blockB;
     focusInline := Some spanS1;
     focusText := Some textT1 |}.

(** Nothing is focused. *)
Definition blurred : SlateValue :=
  {| value_document := doc;
     selection := caretIn "";
     focusBlock := None;
     focusInline := None;
     focusText := None |}.

Definition slate : SlateEditor := {| value := val |}.
Definition slateBlurred : SlateEditor := {| value := blurred |}.

Definition features : BlockContentFeatures :=
  {| decorators :=
       [ {| title := "Strong"; decorator_value := "strong"; has_custom_render := false |};
         {| title := "Emphasis"; decorator_value := "em"; has_custom_render := false |} ];
     types := {| blockObjects := [ {| name := "code" |} ];
                 inlineObjects := [ {| name := "image" |} ];
                 span := {| name := "span" |} |} |}.

Definition persistedB : FormBuilderValue := {| _key := "B"; _type := "block" |}.
Definition persistedB2 : FormBuilderValue := {| _key := "B2"; _type := "block" |}.
Definition pasted : FormBuilderValue := {| _key := "X"; _type := "block" |}.

Definition pathObject (identity : nat) (segs : Path) : option PathObject :=
  Some {| identity := identity; segments := segs |}.

Definition withProps (fp : option PathObject) (ms : list Marker)
    (interceptor : option PasteInterceptor)
    (persistedValue : option (list FormBuilderValue)) : Props :=
  {| blockContentFeatures := features;
     editorValue := val;
     fullscreen := false;
     focusPath := fp;
     markers := ms;
     onPaste := interceptor;
     readOnly := false;
     schemaType := {| name := "body" |};
     undoRedoStack := {| stack_ref := 0 |};
     userIsWritingText := false;
     persisted := persistedValue |}.

(** A mounted component: the editor ref is set. *)
Definition mounted (p : Props) : Instance :=
  {| props := p; _editor := Some slate; _plugins := [] |}.

Definition focusedOn (identity : nat) (segs : Path) : Instance :=
  mounted (withProps (pathObject identity segs) [] None (Some [persistedB; persistedB2])).

Definition withMarkers (ms : list Marker) : Instance :=
  mounted (withProps (pathObject 0 [KeySeg "B"]) ms None (Some [persistedB; persistedB2])).

Definition pasting (interceptor : option PasteInterceptor) : Instance :=
  mounted (withProps (pathObject 0 [KeySeg "B"]) [] interceptor (Some [persistedB; persistedB2])).

Definition markerAt (p : Path) : Marker :=
  {| marker_path := p; marker_type := "validation"; level := Some "error" |}.

Definition defaultBlock : DefaultBlockType :=
  {| default_type := "contentBlock"; default_style := "normal" |}.

Definition rendering (n : SlateNode) : SlateComponentProps :=
  {| node := n; editor := slate; isFocused := false |}.

(** A stand-in for the block-tools conversion: one block per node, keyed
    by the node. *)
Definition convert (ns : list string) (t : SchemaType) : list FormBuilderValue :=
  map (fun k => {| _key := k; _type := "block" |}) ns.

End Fixture.

(** ** Handlers of copy, drag and key events

    These handlers act on the DOM event and on the next handler of the Slate
    plugin stack; what they do is recorded in a trace of its own. *)

(** A key press, as far as the two hotkeys look at it. *)
Record KeyboardEvent : Type := { pressed : string; withMod : bool }.

(** What [getEventTransfer(event)] reads off a drag event: the kind of the
    payload and, when Slate nodes are dragged, the node. *)
Record Transfer : Type := {
  transfer_type : string;
  transfer_node : option SlateNode
}.

Inductive DomEffect : Type :=
| PreventDefault
| StopPropagation
| SetDropEffect (dropEffect : string)   (* [event.dataTransfer.dropEffect = ...] *)
| OnToggleFullScreen (event : KeyboardEvent)
| OnCopy (event : SyntheticEvent)       (* [onCopy({event})] *)
| NextHandler.

(** What a handler returns: a value of its own, or what [next()] returned. *)
Inductive Returned (A : Type) : Type :=
| Value (a : A)
| ByNext.
Arguments Value {A} a.
Arguments ByNext {A}.

Section Handlers.

(** The optional copy part, and the two libraries the handlers call:
    slate-react's [getEventTransfer] and is-hotkey's [isKeyHotkey]. *)
Variable CopyAnswer : Type.
Variable onCopy : option (SyntheticEvent -> CopyAnswer).
Variable DragEvent : Type.
Variable getEventTransfer : DragEvent -> Transfer.
Variable isKeyHotkey : string -> KeyboardEvent -> bool.

Definition handleCopy (this : Instance) (event : SyntheticEvent)
  : list DomEffect * Returned CopyAnswer :=
  match onCopy with
  | Some part => ([OnCopy event], Value (part event))
  | None => ([NextHandler], ByNext)
  end.

(** We do our own handling of dropping blocks and inline nodes, so break the
    slate plugin stack if transferring those node objects. *)
Definition handleDrag (this : Instance) (event : DragEvent)
  : list DomEffect * Returned bool :=
  let transfer := getEventTransfer event in
  match transfer_node transfer with
  | Some dragged =>
      if ObjectKind_eqb (object dragged) block
         || ObjectKind_eqb (object dragged) inline
      then ([SetDropEffect "move"; PreventDefault], Value true)
      else ([NextHandler], ByNext)
  | None => ([NextHandler], ByNext)
  end.

Definition handleToggleFullscreen (this : Instance) (event : KeyboardEvent)
  : list DomEffect * Returned bool :=
  let isFullscreenKey := isKeyHotkey "mod+enter" in
  let isEsc := isKeyHotkey "esc" in
  if isFullscreenKey event || (isEsc event && fullscreen (props this))
  then ([PreventDefault; StopPropagation; OnToggleFullScreen event], Value true)
  else ([NextHandler], ByNext).

End Handlers.

(** ** Rendering a mark, and the class names of the root element *)

(** What Slate hands to [renderMark]: the mark, of which the type is read. *)
Record SlateMarkProps : Type := { mark_type : string }.

(** The element [renderMark] returns: the decorator's own component, the
    generic decorator, or null. *)
Inductive MarkView : Type :=
| CustomComponent (d : Decorator)
| GenericDecorator
| NoMark.

Definition renderMark (this : Instance) (p : SlateMarkProps) : MarkView :=
  let decorator :=
    find (fun item => String.eqb (decorator_value item) (mark_type p))
         (decorators (blockContentFeatures (props this))) in
  match decorator with
  | Some d => if has_custom_render d then CustomComponent d else GenericDecorator
  | None => NoMark
  end.

(** The class names of the style sheet, each a string. *)
Module Css.
Record Styles : Type := {
  root : string;
  hasBlockExtras : string;
  fullscreen : string;
  editor : string;
  blockDragMarker : string
}.
End Css.

(** The two render hooks among the props, of which [render] only asks
    whether they are there when it names the classes of the root element. *)
Record RenderHooks : Type := {
  renderBlockActions : bool;
  renderCustomMarkers : bool
}.

(** [xs.filter(Boolean)] on strings, [false] and [null]: what is not a
    string goes, and so does the empty string. *)
Definition filterBoolean (xs : list (option string)) : list string :=
  flat_map (fun x =>
              match x with
              | Some s => if String.eqb s "" then [] else [s]
              | None => []
              end) xs.

(** [markers.filter(marker => marker.path.length > 0).length > 0] *)
Definition hasMarkers (this : Instance) : bool :=
  Nat.ltb 0 (length (filter (fun marker => Nat.ltb 0 (length (marker_path marker)))
                            (markers (props this)))).

Definition classNames (styles : Css.Styles) (hooks : RenderHooks) (this : Instance)
  : list string :=
  filterBoolean
    [ Some (Css.root styles);
      (if renderBlockActions hooks || hasMarkers this
       then Some (Css.hasBlockExtras styles)
       else None);
      (if fullscreen (props this) then Some (Css.fullscreen styles) else None) ].

(** ** An interceptor that throws

    The paste interceptor is code of the component's user, and [handlePaste]
    calls it with no [try] or [finally] around the call: instead of answering
    it may throw, and the exception leaves [handlePaste] at that point. *)

Definition ThrowingInterceptor := PasteArgs -> result (option PasteResult).

(** An interceptor that always answers. *)
Definition answering (f : PasteInterceptor) : ThrowingInterceptor :=
  fun args => Ok (f args).

(** [handlePaste] with the interceptor, the prop or else the part, given as
    it is in general. *)
Definition handlePasteWith (interceptor : option ThrowingInterceptor)
    (this : Instance) (event : SyntheticEvent) (editor : SlateEditor)
  : M PasteReturn :=
  match interceptor with
  | None => next
  | Some onPaste =>
      emit (OnLoading {| paste := Some "start" |}) ;;
      let args := pasteArgs this event editor in
      emit (InterceptPaste args) ;;
      result <- lift (onPaste args) ;;
      match result with
      | Some {| result_insert := Some payload; result_path := resultPath |} =>
          let target :=
            match resultPath with
            | Some p => Some p
            | None => option_map segments (focusPath (props this))
            end in
          emit (OnPatch (PatchEvent_from [insert [BlockArray payload] after target])) ;;
          emit (OnLoading {| paste := None |}) ;;
          ret (Inserted payload)
      | _ =>
          emit (OnLoading {| paste := None |}) ;;
          next
      end
  end.

(** ** Reading a trace of [handlePaste] *)

(** The statuses sent through [onLoading], in order. *)
Fixpoint loading_signals (t : list Effect) : list (option string) :=
  match t with
  | [] => []
  | OnLoading p :: rest => paste p :: loading_signals rest
  | _ :: rest => loading_signals rest
  end.

(** The events handed to the patch sink, in order. *)
Fixpoint patch_events (t : list Effect) : list PatchEvent :=
  match t with
  | [] => []
  | OnPatch ev :: rest => ev :: patch_events rest
  | _ :: rest => patch_events rest
  end.

(** How many times [next] is called. *)
Fixpoint next_calls (t : list Effect) : nat :=
  match t with
  | [] => 0
  | Next :: rest => S (next_calls rest)
  | _ :: rest => next_calls rest
  end.

(** How many times a handler of DOM events calls [next]. *)
Fixpoint next_handler_calls (t : list DomEffect) : nat :=
  match t with
  | [] => 0
  | NextHandler :: rest => S (next_handler_calls rest)
  | _ :: rest => next_handler_calls rest
  end.


(** ** Events to run the handlers on *)

Module FixtureEvents.

(** A stand-in for is-hotkey: mod+enter and escape. *)
Definition hotkey (combo : string) (e : KeyboardEvent) : bool :=
  if String.eqb combo "mod+enter" then withMod e && String.eqb (pressed e) "Enter"
  else if String.eqb combo "esc" then String.eqb (pressed e) "Escape"
  else false.

Definition modEnter : KeyboardEvent := {| pressed := "Enter"; withMod := true |}.
Definition escape : KeyboardEvent := {| pressed := "Escape"; withMod := false |}.
Definition letter : KeyboardEvent := {| pressed := "a"; withMod := false |}.

(** A drag event is its transfer. *)
Definition dragging (n : SlateNode) : Transfer :=
  {| transfer_type := "node"; transfer_node := Some n |}.
Definition draggingText : Transfer :=
  {| transfer_type := "text"; transfer_node := None |}.

Definition styles : Css.Styles :=
  {| Css.root := "root";
     Css.hasBlockExtras := "hasBlockExtras";
     Css.fullscreen := "fullscreen";
     Css.editor := "editor";
     Css.blockDragMarker := "blockDragMarker" |}.

Definition noHooks : RenderHooks :=
  {| renderBlockActions := false; renderCustomMarkers := false |}.

(** A component shown fullscreen. *)
Definition fullscreenInstance : Instance :=
  {| props :=
       {| blockContentFeatures := Fixture.features;
          editorValue := Fixture.val;
          fullscreen := true;
          focusPath := None;
          markers := [];
          onPaste := None;
          readOnly := false;
          schemaType := {| name := "body" |};
          undoRedoStack := {| stack_ref := 0 |};
          userIsWritingText := false;
          persisted := None |};
     _editor := Some Fixture.slate;
     _plugins := [] |}.

(** A component whose editor ref is not set. *)
Definition unmountedOn (identity : nat) (segs : Path) : Instance :=
  {| props := Fixture.withProps (Fixture.pathObject identity segs) [] None None;
     _editor := None;
     _plugins := [] |}.

End FixtureEvents.

(** * Properties *)

(** ** Path comparison *)

Lemma segment_eqb_eq (a b : PathSegment) : segment_eqb a b = true <-> a = b.
Proof.
  destruct a as [x|x], b as [y|y]; simpl;
    try (split; intro H; discriminate H);
    rewrite String.eqb_eq; split; congruence.
Qed.

Lemma path_eqb_eq (p q : Path) : path_eqb p q = true <-> p = q.
Proof.
  revert q; induction p as [|a p IH]; intros [|b q]; simpl;
    try (split; intro H; [reflexivity || discriminate H | reflexivity || discriminate H]).
  rewrite andb_true_iff, segment_eqb_eq, IH.
  split; [intros [-> ->]; reflexivity | intro H; inversion H; auto].
Qed.

(** [isEqual] sees the contents of the two arrays and nothing else. *)
Lemma isEqual_contents (a b : option PathObject) :
  isEqual a b = true <-> option_map segments a = option_map segments b.
Proof.
  destruct a as [x|], b as [y|]; simpl;
    try (split; intro H; [reflexivity || discriminate H | reflexivity || discriminate H]).
  rewrite path_eqb_eq. split; congruence.
Qed.

(** A path of three segments is never the single-block path. *)
Lemma three_segments_not_single (a b c x : PathSegment) :
  path_eqb [a; b; c] [x] = false.
Proof. simpl. apply andb_false_r. Qed.

(** ** Focus tracking *)

Ltac run_method :=
  unfold trace, outcome, bind, lift, ret, emit, throw, scrollIntoView; simpl.

(** The same, leaving the document queries folded. *)
Ltac run_method_on_document :=
  unfold trace, outcome, bind, lift, ret, emit, throw, scrollIntoView;
  cbn -[findInlineByAnnotationKey getDescendant].

(** Case analysis on a scrutinee that holds no further case analysis. *)
Ltac case_innermost :=
  match goal with
  | |- context [match ?x with _ => _ end] =>
      lazymatch x with
      | context [match _ with _ => _ end] => fail
      | _ => destruct x; run_method
      end
  end.

(** One call of [trackFocusPath] scrolls at most one node into view. *)
Lemma trackFocusPath_scrolls_at_most_once (this : Instance) :
  length (scrolled (trace (trackFocusPath this))) <= 1.
Proof.
  unfold trackFocusPath.
  destruct (getEditor this); [|simpl; lia].
  destruct (focusPath (props this)) as [fp|]; [|simpl; lia].
  destruct (key_of (at_index (segments fp) 0)) as [k0|e]; run_method; [|lia].
  repeat case_innermost; lia.
Qed.

(** C1, as the code has it.  For a path [[{_key: B}, "markDefs", {_key: A}]]
    such that no span of block B carries the annotation A, resolution raises
    no error and scrolls no span into view; it falls through to the plain
    block case, so block B itself is scrolled into view when the editor is
    mounted and B is in the document, and nothing is scrolled otherwise. *)
Theorem trackFocusPath_annotation_not_carried :
  forall (this : Instance) (fp : PathObject) (A B : string),
    focusPath (props this) = Some fp ->
    segments fp = [KeySeg B; FieldSeg "markDefs"; KeySeg A] ->
    findInlineByAnnotationKey (Some A)
      (getDescendant (value_document (editorValue (props this))) (Some B)) = None ->
    trackFocusPath this =
      (match getEditor this,
             getDescendant (value_document (editorValue (props this))) (Some B) with
       | Some _, Some b => [ScrollIntoView b]
       | _, _ => []
       end, Ok tt).
Proof.
  intros this fp A B Hfp Hsegs Hnone.
  unfold trackFocusPath. rewrite Hfp, Hsegs.
  destruct (getEditor this) as [ed|]; [|reflexivity].
  assert (Hsingle :
            match focusBlock (editorValue (props this)) with
            | Some fb => path_eqb [KeySeg B; FieldSeg "markDefs"; KeySeg A] [KeySeg (key fb)]
            | None => false
            end = false).
  { destruct (focusBlock _); [apply three_segments_not_single | reflexivity]. }
  rewrite Hsingle. run_method_on_document. rewrite Hnone.
  destruct (getDescendant _ _); reflexivity.
Qed.

(** C2.  With the editor mounted, a path [[{_key: blockKey}, "children",
    {_key: childKey}]] whose child key names no node of the document makes
    [trackFocusPath] throw at once, before any effect; when the document has
    a node with that key, that node is scrolled into view. *)
Theorem trackFocusPath_inline_child :
  forall (this : Instance) (ed : SlateEditor) (fp : PathObject)
         (blockKey childKey : string),
    getEditor this = Some ed ->
    focusPath (props this) = Some fp ->
    segments fp = [KeySeg blockKey; FieldSeg "children"; KeySeg childKey] ->
    let doc := value_document (editorValue (props this)) in
    (getDescendant doc (Some childKey) = None ->
     trackFocusPath this =
       ([], Throw (Error ("Could not find a inline with key " ++ childKey
                          ++ ", something is amiss.")))) /\
    (forall child, getDescendant doc (Some childKey) = Some child ->
     trackFocusPath this = ([ScrollIntoView child], Ok tt)).
Proof.
  intros this ed fp blockKey childKey Hed Hfp Hsegs doc.
  assert (Hsingle :
            match focusBlock (editorValue (props this)) with
            | Some fb =>
                path_eqb [KeySeg blockKey; FieldSeg "children"; KeySeg childKey]
                         [KeySeg (key fb)]
            | None => false
            end = false).
  { destruct (focusBlock _); [apply three_segments_not_single | reflexivity]. }
  split; [intros Hnone | intros child Hsome];
    unfold trackFocusPath; rewrite Hed, Hfp, Hsegs, Hsingle;
    run_method_on_document; fold doc.
  - rewrite Hnone. reflexivity.
  - rewrite Hsome. reflexivity.
Qed.

(** C1, as stated, fails: block [B2] of the fixture has no span carrying the
    annotation [A], and resolving [[{_key: "B2"}, "markDefs", {_key: "A"}]]
    still scrolls a node into view, namely block [B2]. *)
Lemma trackFocusPath_annotation_not_carried_counterexample :
  let this :=
    Fixture.focusedOn 1 [KeySeg "B2"; FieldSeg "markDefs"; KeySeg "A"] in
  ~ (findInlineByAnnotationKey (Some "A")
       (getDescendant (value_document (editorValue (props this))) (Some "B2")) = None ->
     scrolled (trace (trackFocusPath this)) = []).
Proof.
  intros this H. specialize (H eq_refl). vm_compute in H. discriminate H.
Qed.

Lemma trackFocusPath_annotation_not_carried_witness :
  trackFocusPath (Fixture.focusedOn 1 [KeySeg "B2"; FieldSeg "markDefs"; KeySeg "A"])
  = ([ScrollIntoView Fixture.blockB2], Ok tt).
Proof.
  exact (trackFocusPath_annotation_not_carried
           (Fixture.focusedOn 1 [KeySeg "B2"; FieldSeg "markDefs"; KeySeg "A"])
           {| identity := 1;
              segments := [KeySeg "B2"; FieldSeg "markDefs"; KeySeg "A"] |}
           "A" "B2" eq_refl eq_refl eq_refl).
Defined.

Lemma trackFocusPath_inline_child_witness :
  trackFocusPath (Fixture.focusedOn 1 [KeySeg "B"; FieldSeg "children"; KeySeg "gone"])
  = ([], Throw (Error "Could not find a inline with key gone, something is amiss."))
  /\ trackFocusPath (Fixture.focusedOn 1 [KeySeg "B"; FieldSeg "children"; KeySeg "I1"])
     = ([ScrollIntoView Fixture.imageI1], Ok tt).
Proof.
  split.
  - exact (proj1 (trackFocusPath_inline_child
                    (Fixture.focusedOn 1 [KeySeg "B"; FieldSeg "children"; KeySeg "gone"])
                    Fixture.slate
                    {| identity := 1;
                       segments := [KeySeg "B"; FieldSeg "children"; KeySeg "gone"] |}
                    "B" "gone" eq_refl eq_refl eq_refl) eq_refl).
  - exact (proj2 (trackFocusPath_inline_child
                    (Fixture.focusedOn 1 [KeySeg "B"; FieldSeg "children"; KeySeg "I1"])
                    Fixture.slate
                    {| identity := 1;
                       segments := [KeySeg "B"; FieldSeg "children"; KeySeg "I1"] |}
                    "B" "I1" eq_refl eq_refl eq_refl) Fixture.imageI1 eq_refl).
Defined.

(** A re-render that leaves the focus path equal by value does nothing. *)
Lemma componentDidUpdate_unchanged (this : Instance) (prevProps : Props) :
  isEqual (focusPath prevProps) (focusPath (props this)) = true ->
  componentDidUpdate this prevProps = ([], Ok tt).
Proof.
  intro Heq. unfold componentDidUpdate.
  destruct (getEditor this); [|reflexivity].
  destruct (focusPath (props this)) as [fp|] eqn:Hfp; [|reflexivity].
  destruct (Nat.eqb _ 0); [reflexivity|].
  rewrite Heq. reflexivity.
Qed.

Lemma rerenders_unchanged (contents : option Path) (renders : list Instance) :
  forall prevProps,
    option_map segments (focusPath prevProps) = contents ->
    (forall this, In this renders ->
       option_map segments (focusPath (props this)) = contents) ->
    rerenders prevProps renders = ([], Ok tt).
Proof.
  induction renders as [|this later IH]; intros prevProps Hprev Hall; [reflexivity|].
  simpl. rewrite componentDidUpdate_unchanged.
  - run_method. rewrite (IH (props this)); [reflexivity| |].
    + apply Hall. left. reflexivity.
    + intros i Hi. apply Hall. right. exact Hi.
  - apply isEqual_contents. rewrite Hprev. symmetry. apply Hall. left. reflexivity.
Qed.

Lemma scrolled_app (t u : list Effect) : scrolled (t ++ u) = scrolled t ++ scrolled u.
Proof.
  induction t as [|e t IH]; [reflexivity|].
  destruct e; simpl; rewrite IH; reflexivity.
Qed.

(** Sequencing adds at most the scrolls of the continuation. *)
Lemma scrolled_bind {A B : Type} (m : M A) (f : A -> M B) (bound : nat) :
  (forall a, length (scrolled (trace (f a))) <= bound) ->
  length (scrolled (trace (bind m f))) <= length (scrolled (trace m)) + bound.
Proof.
  intro Hf. destruct m as [t [a|e]]; unfold bind, trace; simpl.
  - specialize (Hf a). unfold trace in Hf. destruct (f a) as [t' r]. simpl in *.
    rewrite scrolled_app, length_app. lia.
  - lia.
Qed.

Lemma componentDidUpdate_scrolls (this : Instance) (prevProps : Props) :
  length (scrolled (trace (componentDidUpdate this prevProps)))
  <= if isEqual (focusPath prevProps) (focusPath (props this)) then 0 else 1.
Proof.
  destruct (isEqual (focusPath prevProps) (focusPath (props this))) eqn:Heq.
  - rewrite (componentDidUpdate_unchanged _ _ Heq). simpl. lia.
  - unfold componentDidUpdate.
    destruct (getEditor this); [|simpl; lia].
    destruct (focusPath (props this)) as [fp|]; [|simpl; lia].
    destruct (Nat.eqb _ 0); [simpl; lia|].
    destruct (negb (negb _)); [simpl; lia|].
    apply trackFocusPath_scrolls_at_most_once.
Qed.

Lemma rerenders_scrolls (renders : list Instance) :
  forall prevProps,
    length (scrolled (trace (rerenders prevProps renders))) <= changes prevProps renders.
Proof.
  induction renders as [|this later IH]; intro prevProps; simpl; [lia|].
  pose proof (componentDidUpdate_scrolls this prevProps) as Hstep.
  pose proof (scrolled_bind (componentDidUpdate this prevProps)
                (fun _ => rerenders (props this) later)
                (changes (props this) later) (fun _ => IH (props this))) as Hseq.
  lia.
Qed.

(** C9.  Over the life of a mounted component the number of nodes scrolled
    into view is at most one, for the resolution at mount, plus the number of
    re-renders whose focus path differs by value from the one before.  So
    over any run of re-renders in which the focus path keeps the value it had
    at mount (the array may be a new object each time), the updates produce
    no effect at all: every effect of the run is the one of the first
    resolution, and at most one node is scrolled into view. *)
Theorem focus_path_unchanged_no_rescroll :
  forall (mounted : Instance) (renders : list Instance),
    length (scrolled (trace (lifecycle mounted renders)))
    <= 1 + changes (props mounted) renders /\
    ((forall this, In this renders ->
        isEqual (focusPath (props mounted)) (focusPath (props this)) = true) ->
     rerenders (props mounted) renders = ([], Ok tt) /\
     trace (lifecycle mounted renders) = trace (componentDidMount mounted) /\
     length (scrolled (trace (lifecycle mounted renders))) <= 1).
Proof.
  intros mounted renders. split.
  - pose proof (trackFocusPath_scrolls_at_most_once mounted) as Hmount.
    pose proof (scrolled_bind (componentDidMount mounted)
                  (fun _ => rerenders (props mounted) renders)
                  (changes (props mounted) renders)
                  (fun _ => rerenders_scrolls renders (props mounted))) as Hseq.
    unfold lifecycle. unfold componentDidMount in *. lia.
  - intro Hsame.
    assert (Hre : rerenders (props mounted) renders = ([], Ok tt)).
    { apply (rerenders_unchanged (option_map segments (focusPath (props mounted))));
        [reflexivity|].
      intros this Hin. symmetry. apply isEqual_contents. apply Hsame. exact Hin. }
    assert (Htrace : trace (lifecycle mounted renders) = trace (componentDidMount mounted)).
    { unfold lifecycle, bind. rewrite Hre.
      destruct (componentDidMount mounted) as [t [[]|e]]; simpl;
        [apply app_nil_r | reflexivity]. }
    split; [exact Hre | split; [exact Htrace|]].
    rewrite Htrace. apply trackFocusPath_scrolls_at_most_once.
Qed.

Lemma focus_path_unchanged_no_rescroll_witness :
  let mounted := Fixture.focusedOn 1 [KeySeg "B2"] in
  let renders := [Fixture.focusedOn 2 [KeySeg "B2"]; Fixture.focusedOn 3 [KeySeg "B2"]] in
  rerenders (props mounted) renders = ([], Ok tt) /\
  trace (lifecycle mounted renders) = [ScrollIntoView Fixture.blockB2] /\
  length (scrolled (trace (lifecycle mounted renders))) <= 1.
Proof.
  intros mounted renders.
  apply (proj2 (focus_path_unchanged_no_rescroll mounted renders)).
  intros this [<-|[<-|[]]]; reflexivity.
Defined.

(** ** Change and paste handlers *)

(** When an interceptor is configured (the prop, or else the part) and
    answers [{insert: blocks, path: P}], [handlePaste] signals
    [{paste: 'start'}], runs the interceptor, hands the patch sink one event
    holding one insert patch, placed after [P] or after the focus path when
    [P] is missing, signals [{paste: null}], and returns the payload; nothing
    else happens and [next] is not called.  The patch has a single item, the
    payload array as a whole. *)
Theorem handlePaste_insert :
  forall (part : option PasteInterceptor) (this : Instance) (event : SyntheticEvent)
         (ed : SlateEditor) (interceptor : PasteInterceptor)
         (blocks : list FormBuilderValue) (P : option Path),
    pasteInterceptor part this = Some interceptor ->
    interceptor (pasteArgs this event ed)
    = Some {| result_insert := Some blocks; result_path := P |} ->
    handlePaste part this event ed =
      ([ OnLoading {| paste := Some "start" |};
         InterceptPaste (pasteArgs this event ed);
         OnPatch (PatchEvent_from
                    [insert [BlockArray blocks] after
                       (match P with
                        | Some p => Some p
                        | None => option_map segments (focusPath (props this))
                        end)]);
         OnLoading {| paste := None |} ],
       Ok (Inserted blocks)).
Proof.
  intros part this event ed interceptor blocks P Hconf Hres.
  unfold handlePaste. rewrite Hconf. run_method. rewrite Hres. reflexivity.
Qed.

Lemma handlePaste_insert_witness :
  let answer : PasteInterceptor :=
    fun args => Some {| result_insert := Some [Fixture.pasted];
                        result_path := Some (args_path args) |} in
  handlePaste None (Fixture.pasting (Some answer)) (ClipboardEvent "text") Fixture.slate
  = ([ OnLoading {| paste := Some "start" |};
       InterceptPaste (pasteArgs (Fixture.pasting (Some answer))
                                 (ClipboardEvent "text") Fixture.slate);
       OnPatch (PatchEvent_from
                  [insert [BlockArray [Fixture.pasted]] after
                     (Some [KeySeg "B"; FieldSeg "children"; KeySeg "T1"])]);
       OnLoading {| paste := None |} ],
     Ok (Inserted [Fixture.pasted])).
Proof.
  intro answer.
  exact (handlePaste_insert None (Fixture.pasting (Some answer)) (ClipboardEvent "text")
           Fixture.slate answer [Fixture.pasted]
           (Some [KeySeg "B"; FieldSeg "children"; KeySeg "T1"]) eq_refl eq_refl).
Defined.

(** C3, at a payload of two blocks.  [handlePaste] builds the patch with
    [insert([result.insert], ...)]: the patch it sends has one item, the
    payload array as a whole, and is not the patch that inserts the two
    blocks.  The event is the only one sent, it is placed after [P], and the
    loading signals are [start] then [null], as the claim has them. *)
Lemma handlePaste_insert_nests_payload :
  let blockX : FormBuilderValue := {| _key := "X"; _type := "block" |} in
  let blockY : FormBuilderValue := {| _key := "Y"; _type := "block" |} in
  let P : Path := [KeySeg "B"] in
  let answer : PasteInterceptor :=
    fun _ => Some {| result_insert := Some [blockX; blockY]; result_path := Some P |} in
  let t := trace (handlePaste None (Fixture.pasting (Some answer))
                              (ClipboardEvent "text") Fixture.slate) in
  patch_events t
  = [PatchEvent_from [insert [BlockArray [blockX; blockY]] after (Some P)]] /\
  patch_events t <> [PatchEvent_from [insert_blocks [blockX; blockY] after (Some P)]] /\
  map (fun ev => map (fun patch => length (items patch)) (patches ev)) (patch_events t)
  = [[1]] /\
  loading_signals t = [Some "start"; None].
Proof.
  intros blockX blockY P answer t.
  split; [reflexivity | split; [|split; reflexivity]].
  intro H. vm_compute in H. discriminate H.
Qed.

(** C4.  With no interceptor at all, neither the prop nor the part,
    [handlePaste] calls [next] once and does nothing else: the patch sink
    receives nothing. *)
Theorem handlePaste_without_interceptor :
  forall (this : Instance) (event : SyntheticEvent) (ed : SlateEditor),
    onPaste (props this) = None ->
    handlePaste None this event ed = ([Next], Ok ReturnedByNext).
Proof.
  intros this event ed Hnone.
  unfold handlePaste, pasteInterceptor. rewrite Hnone. reflexivity.
Qed.

Lemma handlePaste_without_interceptor_witness :
  handlePaste None (Fixture.pasting None) (ClipboardEvent "text") Fixture.slate
  = ([Next], Ok ReturnedByNext).
Proof.
  exact (handlePaste_without_interceptor (Fixture.pasting None) (ClipboardEvent "text")
           Fixture.slate eq_refl).
Defined.

(** C10.  An interceptor that answers nothing, or answers without an insert
    payload, still brackets its run with [{paste: 'start'}] and
    [{paste: null}] before [next] is called; with no interceptor configured
    [next] is called straight away and no loading signal is sent. *)
Theorem handlePaste_loading_signals :
  forall (part : option PasteInterceptor) (this : Instance) (event : SyntheticEvent)
         (ed : SlateEditor),
    (forall interceptor : PasteInterceptor,
        pasteInterceptor part this = Some interceptor ->
        match interceptor (pasteArgs this event ed) with
        | Some answer => result_insert answer
        | None => None
        end = None ->
        handlePaste part this event ed =
          ([ OnLoading {| paste := Some "start" |};
             InterceptPaste (pasteArgs this event ed);
             OnLoading {| paste := None |};
             Next ],
           Ok ReturnedByNext)) /\
    (pasteInterceptor part this = None ->
     handlePaste part this event ed = ([Next], Ok ReturnedByNext) /\
     forall signal, ~ In (OnLoading signal) (trace (handlePaste part this event ed))).
Proof.
  intros part this event ed. split.
  - intros interceptor Hconf Hnothing.
    unfold handlePaste. rewrite Hconf. run_method.
    destruct (interceptor (pasteArgs this event ed)) as [[ins pth]|]; simpl in *.
    + rewrite Hnothing. reflexivity.
    + reflexivity.
  - intro Hnone. unfold handlePaste. rewrite Hnone. split; [reflexivity|].
    intros signal [Hin|[]]. discriminate Hin.
Qed.

Lemma handlePaste_loading_signals_witness :
  let silent : PasteInterceptor := fun _ => None in
  let pathOnly : PasteInterceptor :=
    fun args => Some {| result_insert := None; result_path := Some (args_path args) |} in
  let bracketed (this : Instance) :=
    handlePaste None this (ClipboardEvent "text") Fixture.slate
    = ([ OnLoading {| paste := Some "start" |};
         InterceptPaste (pasteArgs this (ClipboardEvent "text") Fixture.slate);
         OnLoading {| paste := None |};
         Next ],
       Ok ReturnedByNext) in
  bracketed (Fixture.pasting (Some silent)) /\
  bracketed (Fixture.pasting (Some pathOnly)) /\
  handlePaste None (Fixture.pasting None) (ClipboardEvent "text") Fixture.slate
  = ([Next], Ok ReturnedByNext).
Proof.
  intros silent pathOnly bracketed. split; [|split].
  - exact (proj1 (handlePaste_loading_signals None (Fixture.pasting (Some silent))
                    (ClipboardEvent "text") Fixture.slate) silent eq_refl eq_refl).
  - exact (proj1 (handlePaste_loading_signals None (Fixture.pasting (Some pathOnly))
                    (ClipboardEvent "text") Fixture.slate) pathOnly eq_refl eq_refl).
  - exact (proj1 (proj2 (handlePaste_loading_signals None (Fixture.pasting None)
                           (ClipboardEvent "text") Fixture.slate) eq_refl)).
Defined.

(** C6.  [handleChange] calls [onChange] exactly once, whatever the state.
    It passes the completion callback, which reports the focused block's key
    as a single-segment path through [onFocus], if and only if the new value
    has a focused block and the focus path prop has exactly one segment;
    otherwise [onChange] gets the editor alone. *)
Theorem handleChange_reports_focus :
  forall (this : Instance) (ed : SlateEditor),
    exists callback : option Callback,
      handleChange this ed = ([OnChange ed callback], Ok tt) /\
      (forall p : Path,
          callback = Some (FocusCallback p) <->
          exists fb fp,
            focusBlock (value ed) = Some fb /\
            focusPath (props this) = Some fp /\
            length (segments fp) = 1 /\
            p = [KeySeg (key fb)]) /\
      (forall p : Path,
          callback = Some (FocusCallback p) ->
          run_callback (FocusCallback p) = ([OnFocus p], Ok tt)).
Proof.
  intros this ed. unfold handleChange.
  destruct (focusBlock (value ed)) as [fb|] eqn:Hfb; simpl.
  - destruct (focusPath (props this)) as [fp|] eqn:Hfp; simpl.
    + destruct (Nat.eqb (length (segments fp)) 1) eqn:Hlen.
      * apply Nat.eqb_eq in Hlen.
        exists (Some (FocusCallback [KeySeg (key fb)])).
        split; [reflexivity | split].
        -- intro p. split.
           ++ intro H. inversion H; subst. exists fb, fp. auto.
           ++ intros (fb' & fp' & H1 & H2 & _ & ->). congruence.
        -- reflexivity.
      * apply Nat.eqb_neq in Hlen.
        exists None. split; [reflexivity | split].
        -- intro p. split; [discriminate|].
           intros (fb' & fp' & _ & H2 & H3 & _). congruence.
        -- discriminate.
    + exists None. split; [reflexivity | split].
      * intro p. split; [discriminate|].
        intros (fb' & fp' & _ & H2 & _). discriminate H2.
      * discriminate.
  - exists None. split; [reflexivity | split].
    + intro p. split; [discriminate|].
      intros (fb' & fp' & H1 & _). discriminate H1.
    + discriminate.
Qed.

(** ** The plugin list *)

(** C5.  Whatever the props, the list the constructor builds has eighteen
    plugins, and their roles are, in order, the registration order of the
    specification. *)
Theorem constructor_plugin_order :
  forall (defaultBlock : DefaultBlockType) (p : Props),
    map role (_plugins (constructor defaultBlock p)) = spec_registration_order /\
    length (_plugins (constructor defaultBlock p)) = 18.
Proof.
  intros defaultBlock p. split; reflexivity.
Qed.

(** ** Rendering *)

Lemma filterR_In {A : Type} (p : A -> result bool) (xs : list A) :
  forall ys, filterR p xs = Ok ys ->
  forall x, In x ys <-> In x xs /\ p x = Ok true.
Proof.
  induction xs as [|a xs IH]; simpl; intros ys H x.
  - inversion H; subst. simpl. tauto.
  - destruct (p a) as [keep|e] eqn:Hpa; simpl in H; [|discriminate H].
    destruct (filterR p xs) as [kept|e] eqn:Hrest; simpl in H; [|discriminate H].
    inversion H; subst; clear H. specialize (IH kept eq_refl x).
    destruct keep; simpl; rewrite ?IH; split.
    + intros [->|[Hin Hp]]; auto.
    + intros [[->|Hin] Hp]; auto.
    + intros [Hin Hp]; auto.
    + intros [[->|Hin] Hp]; [congruence | auto].
Qed.

Lemma filterR_returns {A : Type} (p : A -> result bool) (xs : list A) :
  (forall x, In x xs -> exists b, p x = Ok b) ->
  exists ys, filterR p xs = Ok ys.
Proof.
  induction xs as [|a xs IH]; simpl; intro Hall; [eexists; reflexivity|].
  destruct (Hall a (or_introl eq_refl)) as [b ->]. simpl.
  destruct IH as [ys ->]; [intros x Hx; apply Hall; right; exact Hx|].
  simpl. eexists; reflexivity.
Qed.

Lemma add_annotation_markers_In (all : list Marker) (parent : option SlateNode)
    (anns : list (string * Annotation)) :
  forall acc res,
    add_annotation_markers all parent anns acc = Ok res ->
    forall m,
      In m res <->
      In m acc \/
      exists entry, In entry anns /\ In m all /\
                    targets_annotation parent (snd entry) m = Ok true.
Proof.
  induction anns as [|[nm a] anns IH]; simpl; intros acc res H m.
  - inversion H; subst. split; [auto | intros [Hin|(entry & [] & _)]; exact Hin].
  - destruct (filterR (targets_annotation parent a) all) as [found|e] eqn:Hf;
      simpl in H; [|discriminate H].
    rewrite (IH _ _ H m), in_app_iff, (filterR_In _ _ _ Hf m). split.
    + intros [[Hin|[Hin Ht]]|(entry & Hin & Hrest)]; auto.
      * right. exists (nm, a). auto.
      * right. exists entry. auto.
    + intros [Hin|(entry & [<-|Hin] & Hall & Ht)]; auto.
      right. exists entry. auto.
Qed.

Lemma add_annotation_markers_returns (all : list Marker) (parent : option SlateNode)
    (anns : list (string * Annotation)) :
  (forall a m, In m all -> exists b, targets_annotation parent a m = Ok b) ->
  forall acc, exists res, add_annotation_markers all parent anns acc = Ok res.
Proof.
  intro Hall. induction anns as [|[nm a] anns IH]; simpl; intro acc;
    [eexists; reflexivity|].
  destruct (filterR_returns (targets_annotation parent a) all) as [found ->];
    [intros m Hm; apply Hall; exact Hm|].
  simpl. apply IH.
Qed.

Lemma targets_annotation_returns (parent : SlateNode) (a : Annotation) (m : Marker) :
  marker_wf m -> exists b, targets_annotation (Some parent) a m = Ok b.
Proof.
  intros [Hne Hlen]. unfold targets_annotation, at_index.
  destruct (marker_path m) as [|s0 [|s1 [|s2 rest]]]; simpl in *;
    try congruence;
    repeat match goal with
           | |- context [if ?c then _ else _] => destruct c; simpl
           end;
    eexists; reflexivity.
Qed.

(** A marker on a block, [[{_key: X}]], passes neither test. *)
Lemma single_segment_targets_nothing (m : Marker) (X : string) :
  marker_path m = [KeySeg X] ->
  (forall n, targets_child n m = false) /\
  (forall parent a, targets_annotation parent a m <> Ok true).
Proof.
  intro Hp. split.
  - intro n. unfold targets_child. rewrite Hp. reflexivity.
  - intros parent a. unfold targets_annotation. rewrite Hp. simpl.
    destruct parent as [b|]; simpl; [|discriminate].
    destruct (String.eqb X (key b)); discriminate.
Qed.

Section RenderingFacts.

Variable JsonNode : Type.
Variable toJSON : SlateNode -> JsonNode.
Variable editorValueToBlocks : list JsonNode -> SchemaType -> list FormBuilderValue.

#[local] Abbreviation render := (renderNode JsonNode toJSON editorValueToBlocks).

Lemma renderNode_markers (this : Instance) (p : SlateComponentProps) :
  forall v, render this p = Ok v ->
            attached_markers this p = Ok (view_markers v).
Proof.
  intros v. unfold renderNode.
  destruct (attached_markers this p) as [ms|e]; simpl; [|discriminate].
  destruct (String.eqb (type (node p)) "contentBlock");
    [|destruct (String.eqb (type (node p)) "span")];
    intro H; inversion H; reflexivity.
Qed.

Lemma renderNode_returns (this : Instance) (p : SlateComponentProps) :
  forall ms, attached_markers this p = Ok ms ->
             exists v, render this p = Ok v /\ view_markers v = ms.
Proof.
  intros ms Hms. unfold renderNode. rewrite Hms. simpl.
  destruct (String.eqb (type (node p)) "contentBlock");
    [|destruct (String.eqb (type (node p)) "span")];
    eexists; split; reflexivity.
Qed.

End RenderingFacts.

(** C8.  For a [contentBlock] node the element is the content-block view of
    that node, and the block it is given is found by key in the persisted
    value when there is one; only when the persisted value is missing is the
    block the head of the block-tools conversion of the node. *)
Theorem renderNode_contentBlock_block :
  forall (JsonNode : Type) (toJSON : SlateNode -> JsonNode)
         (editorValueToBlocks : list JsonNode -> SchemaType -> list FormBuilderValue)
         (this : Instance) (p : SlateComponentProps),
    type (node p) = "contentBlock" ->
    (forall blocks, persisted (props this) = Some blocks ->
       renderNode JsonNode toJSON editorValueToBlocks this p =
         Ok (ContentBlock
               (find (fun b => String.eqb (_key b) (key (node p))) blocks)
               (markers_by_key this (node p)) (node p))) /\
    (persisted (props this) = None ->
       renderNode JsonNode toJSON editorValueToBlocks this p =
         Ok (ContentBlock
               (hd_error (editorValueToBlocks [toJSON (node p)]
                                              (schemaType (props this))))
               (markers_by_key this (node p)) (node p))).
Proof.
  intros JsonNode toJSON conv this p Htype.
  unfold renderNode, attached_markers. rewrite Htype. simpl.
  split.
  - intros blocks ->. reflexivity.
  - intros ->. reflexivity.
Qed.

Lemma renderNode_contentBlock_block_witness :
  renderNode string key Fixture.convert
    (Fixture.withMarkers []) (Fixture.rendering Fixture.blockB2)
  = Ok (ContentBlock (Some Fixture.persistedB2) [] Fixture.blockB2)
  /\ renderNode string key Fixture.convert
       (Fixture.mounted (Fixture.withProps None [] None None))
       (Fixture.rendering Fixture.blockB2)
     = Ok (ContentBlock (Some {| _key := "B2"; _type := "block" |}) [] Fixture.blockB2).
Proof.
  split.
  - exact (proj1 (renderNode_contentBlock_block string key Fixture.convert
                    (Fixture.withMarkers []) (Fixture.rendering Fixture.blockB2) eq_refl)
                 [Fixture.persistedB; Fixture.persistedB2] eq_refl).
  - exact (proj2 (renderNode_contentBlock_block string key Fixture.convert
                    (Fixture.mounted (Fixture.withProps None [] None None))
                    (Fixture.rendering Fixture.blockB2) eq_refl)
                 eq_refl).
Defined.

(** C7, as stated, fails: the marker [[{_key: "B"}]] addresses block [B], and
    [renderNode] gives block [B] an empty marker list. *)
Lemma renderNode_block_marker_counterexample :
  let m := Fixture.markerAt [KeySeg "B"] in
  let this := Fixture.withMarkers [m] in
  key Fixture.blockB = "B" /\
  exists v,
    renderNode string key Fixture.convert this (Fixture.rendering Fixture.blockB) = Ok v /\
    ~ In m (view_markers v).
Proof.
  intros m this. split; [reflexivity|].
  eexists. split; [reflexivity|]. simpl. tauto.
Qed.

(** The markers of an inline child are found by the child's key alone: a
    marker that names another block reaches the image of block [B]. *)
Example renderNode_inline_marker_by_child_key :
  let m := Fixture.markerAt [KeySeg "B2"; FieldSeg "children"; KeySeg "I1"] in
  getParent Fixture.doc "I1" = Some Fixture.blockB /\
  option_map view_markers
    (match renderNode string key Fixture.convert (Fixture.withMarkers [m])
             (Fixture.rendering Fixture.imageI1) with
     | Ok v => Some v
     | Throw _ => None
     end) = Some [m].
Proof. split; reflexivity. Qed.

(** What the test of [targets_child] comes to: the third segment is a key
    reference to the node's [_key], or, on a node without [_key], a string
    that is not empty (its [_key] is undefined as well). *)
Lemma targets_child_true (n : SlateNode) (m : Marker) :
  targets_child n m = true <->
  (exists k, nth_error (marker_path m) 2 = Some (KeySeg k) /\
             data_key (data n) = Some k) \/
  (exists field, nth_error (marker_path m) 2 = Some (FieldSeg field) /\
                 field <> "" /\ data_key (data n) = None).
Proof.
  unfold targets_child, at_index.
  destruct (nth_error (marker_path m) 2) as [[k|field]|]; simpl.
  - destruct (data_key (data n)) as [c|]; simpl.
    + rewrite String.eqb_eq. split.
      * intros ->. left. exists c. auto.
      * intros [(k' & Hk & Hc)|(f & Hf & _)]; [|discriminate Hf].
        inversion Hk; inversion Hc; subst. reflexivity.
    + split; [discriminate|].
      intros [(k' & _ & Hc)|(f & Hf & _)]; [discriminate Hc | discriminate Hf].
  - destruct (data_key (data n)) as [c|]; simpl.
    + rewrite andb_false_r. split; [discriminate|].
      intros [(k' & Hk & _)|(f & _ & _ & Hc)]; [discriminate Hk | discriminate Hc].
    + rewrite andb_true_r, negb_true_iff, String.eqb_neq. split.
      * intro Hne. right. exists field. auto.
      * intros [(k' & Hk & _)|(f & Hf & Hne & _)]; [discriminate Hk|].
        inversion Hf; subst. exact Hne.
  - split; [discriminate|].
    intros [(k' & Hk & _)|(f & Hf & _)]; [discriminate Hk | discriminate Hf].
Qed.

(** What the test of [targets_annotation] comes to when it says yes: the
    parent is there and the first three segments are its key, the field
    name and the key of the annotation. *)
Lemma targets_annotation_true (parent : option SlateNode) (a : Annotation) (m : Marker) :
  targets_annotation parent a m = Ok true <->
  exists b, parent = Some b /\
            nth_error (marker_path m) 0 = Some (KeySeg (key b)) /\
            nth_error (marker_path m) 1 = Some (FieldSeg "markDefs") /\
            nth_error (marker_path m) 2 = Some (KeySeg (ann_key a)).
Proof.
  unfold targets_annotation, key_of, at_index, is_field. split.
  - destruct (marker_path m) as [|[k0|f0] [|[k1|f1] [|[k2|f2] rest]]];
      destruct parent as [b|]; cbn -[String.eqb]; try discriminate;
      repeat match goal with
             | |- context [if String.eqb ?x ?y then _ else _] =>
                 destruct (String.eqb x y) eqn:?; cbn -[String.eqb]
             end;
      try discriminate.
    intro Hlast. injection Hlast as Hk2.
    repeat match goal with
           | H : String.eqb _ _ = true |- _ => apply String.eqb_eq in H
           end.
    subst. exists b. auto.
  - intros (b & -> & -> & -> & ->). simpl. rewrite !String.eqb_refl. reflexivity.
Qed.

(** C7, as the code has it.  [renderNode] returns an element for every node
    that is not a span, and for a span when its parent is in the document and
    no marker path is empty or two segments long.  In the element it returns,
    a marker is attached exactly in two cases, and it is one of the [markers]
    prop in both: the node is an inline or a span and the third segment of
    the marker's path has the node's [_key] as its [_key], whatever the first
    two segments are; or the node is a span with its parent in the document
    and the path starts with the key of that parent, ["markDefs"] and the key
    of an annotation the span carries.  So a marker [[{_key: X}]] is attached
    to no node, and a node that is neither an inline nor a span gets none. *)
Theorem renderNode_marker_attachment :
  forall (JsonNode : Type) (toJSON : SlateNode -> JsonNode)
         (editorValueToBlocks : list JsonNode -> SchemaType -> list FormBuilderValue)
         (this : Instance) (p : SlateComponentProps),
    let n := node p in
    let parentOf := getParent (value_document (value (editor p))) (key n) in
    let render := renderNode JsonNode toJSON editorValueToBlocks this p in
    let by_child_key (m : Marker) :=
      (object n = inline \/ type n = "span") /\
      ((exists k, nth_error (marker_path m) 2 = Some (KeySeg k) /\
                  data_key (data n) = Some k) \/
       (exists field, nth_error (marker_path m) 2 = Some (FieldSeg field) /\
                      field <> "" /\ data_key (data n) = None)) in
    let by_annotation (m : Marker) :=
      type n = "span" /\
      exists anns label a parent,
        annotations (data n) = Some anns /\
        In (label, a) anns /\
        parentOf = Some parent /\
        nth_error (marker_path m) 0 = Some (KeySeg (key parent)) /\
        nth_error (marker_path m) 1 = Some (FieldSeg "markDefs") /\
        nth_error (marker_path m) 2 = Some (KeySeg (ann_key a)) in
    (type n <> "span" \/
     (parentOf <> None /\ Forall marker_wf (markers (props this))) ->
     exists v, render = Ok v) /\
    (forall v, render = Ok v ->
       (forall m, In m (view_markers v) <->
                  In m (markers (props this)) /\ (by_child_key m \/ by_annotation m)) /\
       (forall m X, marker_path m = [KeySeg X] -> ~ In m (view_markers v)) /\
       (object n <> inline -> type n <> "span" -> view_markers v = [])).
Proof.
  intros JsonNode toJSON conv this p n parentOf render by_child_key by_annotation.
  assert (Hexact :
            forall v, render = Ok v ->
            forall m, In m (view_markers v) <->
                      In m (markers (props this)) /\ (by_child_key m \/ by_annotation m)).
  { intros v Hv m.
    apply renderNode_markers in Hv. unfold attached_markers in Hv.
    fold n in Hv. fold parentOf in Hv. unfold markers_by_key in Hv.
    unfold by_child_key, by_annotation.
    destruct (String.eqb (type n) "span") eqn:Hspan.
    - apply String.eqb_eq in Hspan.
      destruct (annotations (data n)) as [anns|] eqn:Hanns.
      + rewrite (add_annotation_markers_In _ _ _ _ _ Hv m), filter_In, targets_child_true.
        split.
        * intros [[Hin Hkey]|(entry & Hentry & Hin & Ht)].
          -- split; [exact Hin|]. left. split; [right; exact Hspan | exact Hkey].
          -- split; [exact Hin|]. right. split; [exact Hspan|].
             apply targets_annotation_true in Ht.
             destruct Ht as (b & Hb & H0 & H1 & H2).
             destruct entry as [label a].
             exists anns, label, a, b. simpl in *. auto 10.
        * intros [Hin [[_ Hkey]|[_ (anns' & label & a & b & Ha & Hentry & Hb & H0 & H1 & H2)]]].
          -- left. auto.
          -- right. inversion Ha; subst anns'. exists (label, a).
             split; [exact Hentry | split; [exact Hin|]].
             apply targets_annotation_true. exists b. simpl. auto.
      + inversion Hv as [Heq]. rewrite filter_In, targets_child_true. split.
        * intros [Hin Hkey]. split; [exact Hin|]. left. auto.
        * intros [Hin [[_ Hkey]|[_ (anns' & label & a & b & Ha & _)]]];
            [auto | discriminate Ha].
    - apply String.eqb_neq in Hspan. inversion Hv as [Heq].
      destruct (ObjectKind_eqb (object n) inline) eqn:Hinline.
      + assert (Hobj : object n = inline) by (destruct (object n); try discriminate; reflexivity).
        rewrite filter_In, targets_child_true. split.
        * intros [Hin Hkey]. split; [exact Hin|]. left. auto.
        * intros [Hin [[_ Hkey]|[Hs _]]]; [auto | contradiction].
      + assert (Hobj : object n <> inline)
          by (intro Habs; rewrite Habs in Hinline; discriminate Hinline).
        simpl. split; [contradiction|].
        intros [_ [[[Hi|Hs] _]|[Hs _]]]; contradiction. }
  split.
  - (* an element is returned *)
    intros Hcase.
    assert (Hms : exists ms, attached_markers this p = Ok ms).
    { unfold attached_markers. fold n.
      destruct (String.eqb (type n) "span") eqn:Hspan; [|eexists; reflexivity].
      apply String.eqb_eq in Hspan.
      destruct Hcase as [Hno|[Hparent Hwf]]; [contradiction|].
      destruct (annotations (data n)) as [anns|]; [|eexists; reflexivity].
      fold parentOf. destruct parentOf as [parent|]; [|contradiction].
      apply add_annotation_markers_returns.
      intros a m Hin. apply targets_annotation_returns.
      rewrite Forall_forall in Hwf. apply Hwf. exact Hin. }
    destruct Hms as [ms Hms].
    destruct (renderNode_returns JsonNode toJSON conv this p ms Hms) as [v [Hv _]].
    exists v. exact Hv.
  - intros v Hv. split; [exact (Hexact v Hv) | split].
    + (* a block marker is attached nowhere *)
      intros m X Hpath Hin.
      apply (Hexact v Hv) in Hin. destruct Hin as [_ [[_ Hkey]|[_ Hann]]].
      * rewrite Hpath in Hkey.
        destruct Hkey as [(k & Hk & _)|(f & Hf & _)]; discriminate.
      * destruct Hann as (anns & label & a & b & _ & _ & _ & _ & H1 & _).
        rewrite Hpath in H1. discriminate H1.
    + (* no marker on a node that is neither an inline nor a span *)
      intros Hobj Hspan.
      destruct (view_markers v) as [|m rest] eqn:Hview; [reflexivity|].
      exfalso.
      assert (Hin : In m (view_markers v)) by (rewrite Hview; left; reflexivity).
      apply (Hexact v Hv) in Hin.
      destruct Hin as [_ [[[Hi|Hs] _]|[Hs _]]]; contradiction.
Qed.

Lemma renderNode_marker_attachment_witness :
  let onBlock := Fixture.markerAt [KeySeg "B"] in
  let onChild := Fixture.markerAt [KeySeg "B"; FieldSeg "children"; KeySeg "S1"] in
  let onOtherChild := Fixture.markerAt [KeySeg "B"; FieldSeg "children"; KeySeg "I1"] in
  let onAnnotation := Fixture.markerAt [KeySeg "B"; FieldSeg "markDefs"; KeySeg "A"] in
  let elsewhere := Fixture.markerAt [KeySeg "B2"; FieldSeg "markDefs"; KeySeg "A"] in
  let this :=
    Fixture.withMarkers [onBlock; onChild; onOtherChild; onAnnotation; elsewhere] in
  exists v,
    renderNode string key Fixture.convert this (Fixture.rendering Fixture.spanS1) = Ok v /\
    ~ In onBlock (view_markers v) /\
    In onChild (view_markers v) /\
    ~ In onOtherChild (view_markers v) /\
    In onAnnotation (view_markers v) /\
    ~ In elsewhere (view_markers v).
Proof.
  intros onBlock onChild onOtherChild onAnnotation elsewhere this.
  destruct (renderNode_marker_attachment string key Fixture.convert this
              (Fixture.rendering Fixture.spanS1)) as [Hreturns Hattached].
  destruct Hreturns as [v Hv].
  { right. split; [discriminate|].
    repeat constructor; simpl; discriminate. }
  exists v. split; [exact Hv|].
  destruct (Hattached v Hv) as (Hexact & Hblock & _).
  split; [|split; [|split; [|split]]].
  - apply (Hblock onBlock "B"). reflexivity.
  - apply Hexact. split; [simpl; auto|].
    left. split; [left; reflexivity|]. left. exists "S1". split; reflexivity.
  - intro Hin. apply Hexact in Hin. destruct Hin as [_ [[_ Hkey]|[_ Hann]]].
    + destruct Hkey as [(k & Hk & Hd)|(f & Hf & _)]; [|discriminate Hf].
      inversion Hk; subst k. discriminate Hd.
    + destruct Hann as (anns & label & a & b & _ & _ & _ & _ & H1 & _).
      discriminate H1.
  - apply Hexact. split; [simpl; auto|].
    right. split; [reflexivity|].
    exists [("link", Fixture.linkA)], "link", Fixture.linkA, Fixture.blockB.
    repeat split; simpl; auto.
  - intro Hin. apply Hexact in Hin. destruct Hin as [_ [[_ Hkey]|[_ Hann]]].
    + destruct Hkey as [(k & Hk & Hd)|(f & Hf & _)]; [|discriminate Hf].
      inversion Hk; subst k. discriminate Hd.
    + destruct Hann as (anns & label & a & b & _ & _ & Hb & H0 & _).
      inversion Hb; subst b. discriminate H0.
Defined.

(** * Further properties of the component *)

(** ** Focus tracking *)

(** X1.  An empty focus path is read past its end at mount: with the editor
    mounted, [componentDidMount] throws a TypeError before any effect, while
    [componentDidUpdate] returns on the empty path and does nothing. *)
Theorem empty_focus_path_mount_throws_update_returns :
  forall (this : Instance) (ed : SlateEditor) (fp : PathObject),
    getEditor this = Some ed ->
    focusPath (props this) = Some fp ->
    segments fp = [] ->
    componentDidMount this = ([], Throw TypeError) /\
    forall prevProps, componentDidUpdate this prevProps = ([], Ok tt).
Proof.
  intros this ed fp Hed Hfp Hsegs. split.
  - unfold componentDidMount, trackFocusPath. rewrite Hed, Hfp, Hsegs. reflexivity.
  - intro prevProps. unfold componentDidUpdate. rewrite Hed, Hfp, Hsegs. reflexivity.
Qed.

Lemma empty_focus_path_mount_throws_update_returns_witness :
  componentDidMount (Fixture.focusedOn 1 []) = ([], Throw TypeError) /\
  componentDidUpdate (Fixture.focusedOn 1 [])
    (props (Fixture.focusedOn 0 [KeySeg "B"])) = ([], Ok tt).
Proof.
  destruct (empty_focus_path_mount_throws_update_returns
              (Fixture.focusedOn 1 []) Fixture.slate
              {| identity := 1; segments := [] |} eq_refl eq_refl eq_refl)
    as [Hmount Hupdate].
  split; [exact Hmount | apply Hupdate].
Defined.

(** X2.  For a single-segment path [[{_key: B}]] and a mounted editor: when B
    is the key of the focused block nothing is scrolled; otherwise the block
    with key B is scrolled into view when the document has one, and nothing
    happens, without an error, when it has none. *)
Theorem trackFocusPath_block_path :
  forall (this : Instance) (ed : SlateEditor) (fp : PathObject) (B : string),
    getEditor this = Some ed ->
    focusPath (props this) = Some fp ->
    segments fp = [KeySeg B] ->
    let found := getDescendant (value_document (editorValue (props this))) (Some B) in
    (forall fb, focusBlock (editorValue (props this)) = Some fb -> key fb = B ->
       trackFocusPath this = ([], Ok tt)) /\
    ((forall fb, focusBlock (editorValue (props this)) = Some fb -> key fb <> B) ->
     (forall b, found = Some b -> trackFocusPath this = ([ScrollIntoView b], Ok tt)) /\
     (found = None -> trackFocusPath this = ([], Ok tt))).
Proof.
  intros this ed fp B Hed Hfp Hsegs found. split.
  - intros fb Hfb Hkey. unfold trackFocusPath. rewrite Hed, Hfp, Hsegs, Hfb.
    simpl. rewrite Hkey, String.eqb_refl. reflexivity.
  - intro Hother.
    assert (Hsingle :
              match focusBlock (editorValue (props this)) with
              | Some fb => path_eqb [KeySeg B] [KeySeg (key fb)]
              | None => false
              end = false).
    { destruct (focusBlock (editorValue (props this))) as [fb|] eqn:Hfb; [|reflexivity].
      simpl. rewrite andb_true_r. apply String.eqb_neq.
      intro Heq. apply (Hother fb eq_refl). symmetry. exact Heq. }
    split; [intros b Hb | intro Hnone];
      unfold trackFocusPath; rewrite Hed, Hfp, Hsegs, Hsingle;
      run_method_on_document; fold found.
    + rewrite Hb. reflexivity.
    + rewrite Hnone. reflexivity.
Qed.

Lemma trackFocusPath_block_path_witness :
  trackFocusPath (Fixture.focusedOn 1 [KeySeg "B"]) = ([], Ok tt) /\
  trackFocusPath (Fixture.focusedOn 1 [KeySeg "B2"])
  = ([ScrollIntoView Fixture.blockB2], Ok tt) /\
  trackFocusPath (Fixture.focusedOn 1 [KeySeg "gone"]) = ([], Ok tt).
Proof.
  split; [|split].
  - exact (proj1 (trackFocusPath_block_path (Fixture.focusedOn 1 [KeySeg "B"])
                    Fixture.slate {| identity := 1; segments := [KeySeg "B"] |} "B"
                    eq_refl eq_refl eq_refl) Fixture.blockB eq_refl eq_refl).
  - refine (proj1 (proj2 (trackFocusPath_block_path (Fixture.focusedOn 1 [KeySeg "B2"])
                            Fixture.slate {| identity := 1; segments := [KeySeg "B2"] |}
                            "B2" eq_refl eq_refl eq_refl) _) Fixture.blockB2 eq_refl).
    intros fb Hfb. inversion Hfb. discriminate.
  - refine (proj2 (proj2 (trackFocusPath_block_path (Fixture.focusedOn 1 [KeySeg "gone"])
                            Fixture.slate {| identity := 1; segments := [KeySeg "gone"] |}
                            "gone" eq_refl eq_refl eq_refl) _) eq_refl).
    intros fb Hfb. inversion Hfb. discriminate.
Defined.

Lemma rerenders_unmounted (renders : list Instance) :
  forall prevProps,
    (forall this, In this renders -> getEditor this = None) ->
    rerenders prevProps renders = ([], Ok tt).
Proof.
  induction renders as [|this later IH]; intros prevProps Hall; [reflexivity|].
  simpl. unfold componentDidUpdate.
  rewrite (Hall this (or_introl eq_refl)). run_method.
  rewrite IH; [reflexivity|]. intros i Hi. apply Hall. right. exact Hi.
Qed.

(** X3.  As long as the editor ref is not set, focus tracking is inert: a
    mount and any run of re-renders, whatever the focus paths, produce no
    effect and no error.  A freshly constructed instance is in that state. *)
Theorem lifecycle_unmounted_inert :
  forall (mounted : Instance) (renders : list Instance),
    getEditor mounted = None ->
    (forall this, In this renders -> getEditor this = None) ->
    lifecycle mounted renders = ([], Ok tt) /\
    forall (defaultBlock : DefaultBlockType) (p : Props),
      getEditor (constructor defaultBlock p) = None.
Proof.
  intros mounted renders Hmounted Hall. split; [|reflexivity].
  unfold lifecycle, componentDidMount, trackFocusPath. rewrite Hmounted.
  run_method. rewrite (rerenders_unmounted renders _ Hall). reflexivity.
Qed.

Lemma lifecycle_unmounted_inert_witness :
  lifecycle (FixtureEvents.unmountedOn 1 [])
    [FixtureEvents.unmountedOn 2 [KeySeg "B"; FieldSeg "children"; KeySeg "gone"]]
  = ([], Ok tt).
Proof.
  refine (proj1 (lifecycle_unmounted_inert (FixtureEvents.unmountedOn 1 [])
                   [FixtureEvents.unmountedOn 2
                      [KeySeg "B"; FieldSeg "children"; KeySeg "gone"]]
                   eq_refl _)).
  intros this [<-|[]]. reflexivity.
Defined.

(** X4.  For a path [[{_key: B}, "markDefs", {_key: A}]] and a mounted
    editor, when the search for a span carrying A in block B finds one, that
    span is what is scrolled into view, not the block. *)
Theorem trackFocusPath_annotation_carried :
  forall (this : Instance) (ed : SlateEditor) (fp : PathObject) (A B : string)
         (carrier : SlateNode),
    getEditor this = Some ed ->
    focusPath (props this) = Some fp ->
    segments fp = [KeySeg B; FieldSeg "markDefs"; KeySeg A] ->
    findInlineByAnnotationKey (Some A)
      (getDescendant (value_document (editorValue (props this))) (Some B))
    = Some carrier ->
    trackFocusPath this = ([ScrollIntoView carrier], Ok tt).
Proof.
  intros this ed fp A B carrier Hed Hfp Hsegs Hfound.
  assert (Hsingle :
            match focusBlock (editorValue (props this)) with
            | Some fb => path_eqb [KeySeg B; FieldSeg "markDefs"; KeySeg A] [KeySeg (key fb)]
            | None => false
            end = false).
  { destruct (focusBlock _); [apply three_segments_not_single | reflexivity]. }
  unfold trackFocusPath. rewrite Hed, Hfp, Hsegs, Hsingle.
  run_method_on_document. rewrite Hfound. reflexivity.
Qed.

Lemma trackFocusPath_annotation_carried_witness :
  trackFocusPath (Fixture.focusedOn 1 [KeySeg "B"; FieldSeg "markDefs"; KeySeg "A"])
  = ([ScrollIntoView Fixture.spanS1], Ok tt).
Proof.
  exact (trackFocusPath_annotation_carried
           (Fixture.focusedOn 1 [KeySeg "B"; FieldSeg "markDefs"; KeySeg "A"])
           Fixture.slate
           {| identity := 1; segments := [KeySeg "B"; FieldSeg "markDefs"; KeySeg "A"] |}
           "A" "B" Fixture.spanS1 eq_refl eq_refl eq_refl eq_refl).
Defined.

(** X5.  A re-render with the editor mounted whose focus path is not empty
    and differs by value from the previous one resolves the new path exactly
    as a mount would. *)
Theorem componentDidUpdate_changed_path :
  forall (this : Instance) (prevProps : Props) (ed : SlateEditor) (fp : PathObject),
    getEditor this = Some ed ->
    focusPath (props this) = Some fp ->
    segments fp <> [] ->
    isEqual (focusPath prevProps) (focusPath (props this)) = false ->
    componentDidUpdate this prevProps = componentDidMount this.
Proof.
  intros this prevProps ed fp Hed Hfp Hne Hchanged.
  unfold componentDidUpdate, componentDidMount. rewrite Hed.
  rewrite Hfp in *. rewrite Hchanged.
  destruct (segments fp); [contradiction | reflexivity].
Qed.

Lemma componentDidUpdate_changed_path_witness :
  componentDidUpdate (Fixture.focusedOn 1 [KeySeg "B2"])
    (props (Fixture.focusedOn 1 [KeySeg "B"]))
  = ([ScrollIntoView Fixture.blockB2], Ok tt).
Proof.
  exact (componentDidUpdate_changed_path (Fixture.focusedOn 1 [KeySeg "B2"])
           (props (Fixture.focusedOn 1 [KeySeg "B"])) Fixture.slate
           {| identity := 1; segments := [KeySeg "B2"] |}
           eq_refl eq_refl ltac:(discriminate) eq_refl).
Defined.


(** ** Paste, copy, drag and key handlers *)

(** X7.  The interceptor of the props goes before the paste part: when the
    [onPaste] prop is set, [handlePaste] does the same whatever the part is,
    also when there is none. *)
Theorem handlePaste_prop_before_part :
  forall (part part' : option PasteInterceptor) (this : Instance)
         (event : SyntheticEvent) (ed : SlateEditor) (interceptor : PasteInterceptor),
    onPaste (props this) = Some interceptor ->
    pasteInterceptor part this = Some interceptor /\
    handlePaste part this event ed = handlePaste part' this event ed.
Proof.
  intros part part' this event ed interceptor Hprop.
  unfold handlePaste, pasteInterceptor. rewrite Hprop. split; reflexivity.
Qed.

Lemma handlePaste_prop_before_part_witness :
  let fromProp : PasteInterceptor :=
    fun _ => Some {| result_insert := Some [Fixture.pasted]; result_path := None |} in
  let fromPart : PasteInterceptor := fun _ => None in
  handlePaste (Some fromPart) (Fixture.pasting (Some fromProp))
              (ClipboardEvent "text") Fixture.slate
  = handlePaste None (Fixture.pasting (Some fromProp))
                (ClipboardEvent "text") Fixture.slate.
Proof.
  intros fromProp fromPart.
  exact (proj2 (handlePaste_prop_before_part (Some fromPart) None
                  (Fixture.pasting (Some fromProp)) (ClipboardEvent "text")
                  Fixture.slate fromProp eq_refl)).
Defined.

(** X8.  [handlePaste] is [handlePasteWith] on an interceptor that answers.
    With no interceptor, [next] is called and nothing else happens.  When the
    interceptor answers, the loading signals are [start] then [null], and
    either one event goes to the patch sink or [next] is called once, never
    both and never neither, the patch exactly when the answer has an insert
    payload.  When the interceptor throws, the exception leaves the handler
    right after [start]: no [null] follows, no patch is sent and [next] is
    not called. *)
Theorem handlePaste_patch_or_next :
  forall (interceptor : option ThrowingInterceptor) (this : Instance)
         (event : SyntheticEvent) (ed : SlateEditor),
    let args := pasteArgs this event ed in
    let run := handlePasteWith interceptor this event ed in
    (forall part,
        interceptor = option_map answering (pasteInterceptor part this) ->
        handlePaste part this event ed = run) /\
    (interceptor = None -> run = ([Next], Ok ReturnedByNext)) /\
    (forall f answer,
        interceptor = Some f -> f args = Ok answer ->
        loading_signals (trace run) = [Some "start"; None] /\
        length (patch_events (trace run)) + next_calls (trace run) = 1 /\
        (next_calls (trace run) = 0 <->
         exists a blocks, answer = Some a /\ result_insert a = Some blocks) /\
        exists returned, outcome run = Ok returned) /\
    (forall f e,
        interceptor = Some f -> f args = Throw e ->
        run = ([OnLoading {| paste := Some "start" |}; InterceptPaste args], Throw e)).
Proof.
  intros interceptor this event ed args run. unfold run, args.
  split; [|split; [|split]].
  - intros part ->. unfold handlePaste, handlePasteWith, answering.
    destruct (pasteInterceptor part this) as [f|]; [|reflexivity].
    run_method. destruct (f (pasteArgs this event ed)) as [[[blocks|] pth]|]; reflexivity.
  - intros ->. reflexivity.
  - intros f answer -> Hanswer. unfold handlePasteWith. run_method. rewrite Hanswer.
    destruct answer as [[[blocks|] pth]|]; simpl.
    + split; [reflexivity | split; [reflexivity | split; [|eexists; reflexivity]]].
      split; [intros _ | reflexivity].
      exists {| result_insert := Some blocks; result_path := pth |}, blocks. auto.
    + split; [reflexivity | split; [reflexivity | split; [|eexists; reflexivity]]].
      split; [discriminate|].
      intros (a & blocks & Ha & Hins). inversion Ha; subst. discriminate Hins.
    + split; [reflexivity | split; [reflexivity | split; [|eexists; reflexivity]]].
      split; [discriminate|].
      intros (a & blocks & Ha & _). discriminate Ha.
  - intros f e -> Hthrows. unfold handlePasteWith. run_method. rewrite Hthrows.
    reflexivity.
Qed.

Lemma handlePaste_patch_or_next_witness :
  let failing : ThrowingInterceptor := fun _ => Throw (Error "no clipboard") in
  let inserting : PasteInterceptor :=
    fun _ => Some {| result_insert := Some [Fixture.pasted]; result_path := None |} in
  let this := Fixture.pasting None in
  handlePasteWith (Some failing) this (ClipboardEvent "text") Fixture.slate
  = ([ OnLoading {| paste := Some "start" |};
       InterceptPaste (pasteArgs this (ClipboardEvent "text") Fixture.slate) ],
     Throw (Error "no clipboard")) /\
  handlePaste (Some inserting) this (ClipboardEvent "text") Fixture.slate
  = handlePasteWith (Some (answering inserting)) this (ClipboardEvent "text") Fixture.slate /\
  length (patch_events
            (trace (handlePasteWith (Some (answering inserting)) this
                                    (ClipboardEvent "text") Fixture.slate)))
  + next_calls
      (trace (handlePasteWith (Some (answering inserting)) this
                              (ClipboardEvent "text") Fixture.slate)) = 1.
Proof.
  intros failing inserting this. split; [|split].
  - apply (proj2 (proj2 (proj2 (handlePaste_patch_or_next (Some failing) this
                                  (ClipboardEvent "text") Fixture.slate)))
                 failing (Error "no clipboard")); reflexivity.
  - apply (proj1 (handlePaste_patch_or_next (Some (answering inserting)) this
                    (ClipboardEvent "text") Fixture.slate)).
    reflexivity.
  - apply (proj1 (proj2 (proj2 (handlePaste_patch_or_next
                                  (Some (answering inserting)) this
                                  (ClipboardEvent "text") Fixture.slate)))
                 (answering inserting)
                 (Some {| result_insert := Some [Fixture.pasted]; result_path := None |})
                 eq_refl eq_refl).
Defined.

(** X9.  The copy, drag and fullscreen handlers keep to the contract of the
    plugin stack: each either deals with the event itself, returning a value
    of its own without calling [next], or calls [next] exactly once, returns
    what [next] returned and leaves the event untouched. *)
Theorem handlers_claim_or_delegate :
  forall (CopyAnswer : Type) (onCopy : option (SyntheticEvent -> CopyAnswer))
         (DragEvent : Type) (getEventTransfer : DragEvent -> Transfer)
         (isKeyHotkey : string -> KeyboardEvent -> bool)
         (this : Instance) (copied : SyntheticEvent) (dragged : DragEvent)
         (key : KeyboardEvent),
    let claims_or_delegates (A : Type) (r : list DomEffect * Returned A) :=
      (exists a, snd r = Value a /\ next_handler_calls (fst r) = 0) \/
      (snd r = ByNext /\ fst r = [NextHandler]) in
    claims_or_delegates _ (handleCopy CopyAnswer onCopy this copied) /\
    claims_or_delegates _ (handleDrag DragEvent getEventTransfer this dragged) /\
    claims_or_delegates _ (handleToggleFullscreen isKeyHotkey this key).
Proof.
  intros CopyAnswer onCopy DragEvent getEventTransfer isKeyHotkey this copied dragged key
         claims_or_delegates.
  unfold claims_or_delegates, handleCopy, handleDrag, handleToggleFullscreen.
  split; [|split].
  - destruct onCopy; [left; eexists; split; reflexivity | right; split; reflexivity].
  - destruct (transfer_node (getEventTransfer dragged)) as [n|];
      [|right; split; reflexivity].
    destruct (ObjectKind_eqb (object n) block || ObjectKind_eqb (object n) inline);
      [left; eexists; split; reflexivity | right; split; reflexivity].
  - destruct (isKeyHotkey "mod+enter" key
              || isKeyHotkey "esc" key && fullscreen (props this));
      [left; eexists; split; reflexivity | right; split; reflexivity].
Qed.

Lemma ObjectKind_eqb_eq (a b : ObjectKind) : ObjectKind_eqb a b = true <-> a = b.
Proof. destruct a, b; simpl; split; intro H; try reflexivity; discriminate H. Qed.

(** X10.  [handleDrag] takes the event for itself, setting the drop effect to
    "move" and then cancelling the default, exactly when the transfer holds a
    node whose object is block or inline; a dragged node of any other kind
    (a text, the document) and a transfer without a node go to [next]. *)
Theorem handleDrag_blocks_and_inlines :
  forall (DragEvent : Type) (getEventTransfer : DragEvent -> Transfer)
         (this : Instance) (event : DragEvent),
    let ownNode :=
      exists n, transfer_node (getEventTransfer event) = Some n /\
                (object n = block \/ object n = inline) in
    (ownNode ->
     handleDrag DragEvent getEventTransfer this event
     = ([SetDropEffect "move"; PreventDefault], Value true)) /\
    (~ ownNode ->
     handleDrag DragEvent getEventTransfer this event = ([NextHandler], ByNext)).
Proof.
  intros DragEvent getEventTransfer this event ownNode. unfold ownNode, handleDrag.
  split.
  - intros (n & -> & Hkind).
    destruct Hkind as [-> | ->]; reflexivity.
  - intro Hnot.
    destruct (transfer_node (getEventTransfer event)) as [n|]; [|reflexivity].
    destruct (ObjectKind_eqb (object n) block || ObjectKind_eqb (object n) inline)
      eqn:Hkind; [|reflexivity].
    exfalso. apply Hnot. exists n. split; [reflexivity|].
    apply orb_true_iff in Hkind.
    destruct Hkind as [H|H]; apply ObjectKind_eqb_eq in H; auto.
Qed.

Lemma handleDrag_blocks_and_inlines_witness :
  handleDrag Transfer (fun t => t) (Fixture.withMarkers [])
             (FixtureEvents.dragging Fixture.imageI1)
  = ([SetDropEffect "move"; PreventDefault], Value true) /\
  handleDrag Transfer (fun t => t) (Fixture.withMarkers [])
             (FixtureEvents.dragging Fixture.textT1)
  = ([NextHandler], ByNext) /\
  handleDrag Transfer (fun t => t) (Fixture.withMarkers []) FixtureEvents.draggingText
  = ([NextHandler], ByNext).
Proof.
  split; [|split].
  - apply (proj1 (handleDrag_blocks_and_inlines Transfer (fun t => t)
                    (Fixture.withMarkers []) (FixtureEvents.dragging Fixture.imageI1))).
    exists Fixture.imageI1. split; [reflexivity | right; reflexivity].
  - apply (proj2 (handleDrag_blocks_and_inlines Transfer (fun t => t)
                    (Fixture.withMarkers []) (FixtureEvents.dragging Fixture.textT1))).
    intros (n & Hn & Hkind). inversion Hn; subst.
    destruct Hkind as [H|H]; discriminate H.
  - apply (proj2 (handleDrag_blocks_and_inlines Transfer (fun t => t)
                    (Fixture.withMarkers []) FixtureEvents.draggingText)).
    intros (n & Hn & _). discriminate Hn.
Defined.

(** X11.  [handleToggleFullscreen] toggles on the fullscreen hotkey in either
    mode and on escape only while fullscreen: it then cancels the default,
    stops the propagation and calls [onToggleFullScreen] with the event, in
    that order.  Escape outside fullscreen, like any other key, goes to
    [next] and toggles nothing. *)
Theorem handleToggleFullscreen_keys :
  forall (isKeyHotkey : string -> KeyboardEvent -> bool)
         (this : Instance) (event : KeyboardEvent),
    let toggled :=
      ([PreventDefault; StopPropagation; OnToggleFullScreen event], Value true) in
    (isKeyHotkey "mod+enter" event = true ->
     handleToggleFullscreen isKeyHotkey this event = toggled) /\
    (isKeyHotkey "esc" event = true -> fullscreen (props this) = true ->
     handleToggleFullscreen isKeyHotkey this event = toggled) /\
    (isKeyHotkey "mod+enter" event = false ->
     fullscreen (props this) = false \/ isKeyHotkey "esc" event = false ->
     handleToggleFullscreen isKeyHotkey this event = ([NextHandler], ByNext)).
Proof.
  intros isKeyHotkey this event toggled. unfold toggled, handleToggleFullscreen.
  split; [|split].
  - intros ->. reflexivity.
  - intros -> ->. rewrite orb_true_r. reflexivity.
  - intros -> [-> | ->]; simpl; [rewrite andb_false_r|]; reflexivity.
Qed.

Lemma handleToggleFullscreen_keys_witness :
  handleToggleFullscreen FixtureEvents.hotkey (Fixture.withMarkers [])
                         FixtureEvents.modEnter
  = ([PreventDefault; StopPropagation; OnToggleFullScreen FixtureEvents.modEnter],
     Value true) /\
  handleToggleFullscreen FixtureEvents.hotkey FixtureEvents.fullscreenInstance
                         FixtureEvents.escape
  = ([PreventDefault; StopPropagation; OnToggleFullScreen FixtureEvents.escape],
     Value true) /\
  handleToggleFullscreen FixtureEvents.hotkey (Fixture.withMarkers [])
                         FixtureEvents.escape
  = ([NextHandler], ByNext).
Proof.
  split; [|split].
  - exact (proj1 (handleToggleFullscreen_keys FixtureEvents.hotkey
                    (Fixture.withMarkers []) FixtureEvents.modEnter) eq_refl).
  - exact (proj1 (proj2 (handleToggleFullscreen_keys FixtureEvents.hotkey
                           FixtureEvents.fullscreenInstance FixtureEvents.escape))
                 eq_refl eq_refl).
  - exact (proj2 (proj2 (handleToggleFullscreen_keys FixtureEvents.hotkey
                           (Fixture.withMarkers []) FixtureEvents.escape))
                 eq_refl (or_introl eq_refl)).
Defined.

(** ** Marks, class names and object nodes *)

Lemma find_first_match {A : Type} (f : A -> bool) (pre : list A) (x : A) (post : list A) :
  (forall y, In y pre -> f y = false) ->
  f x = true ->
  find f (pre ++ x :: post) = Some x.
Proof.
  induction pre as [|y pre IH]; simpl; intros Hpre Hx.
  - rewrite Hx. reflexivity.
  - rewrite (Hpre y (or_introl eq_refl)). apply IH; [|exact Hx].
    intros z Hz. apply Hpre. right. exact Hz.
Qed.

(** X12.  [renderMark] renders nothing exactly when no decorator of the
    schema has the mark's type as its value; otherwise the first decorator
    with that value decides, later ones with the same value are never looked
    at: its own component when it has one, the generic decorator when not. *)
Theorem renderMark_first_decorator :
  forall (this : Instance) (p : SlateMarkProps),
    let known := decorators (blockContentFeatures (props this)) in
    (renderMark this p = NoMark <->
     forall d, In d known -> decorator_value d <> mark_type p) /\
    (forall pre d post,
        known = pre ++ d :: post ->
        (forall x, In x pre -> decorator_value x <> mark_type p) ->
        decorator_value d = mark_type p ->
        renderMark this p
        = if has_custom_render d then CustomComponent d else GenericDecorator).
Proof.
  intros this p known. unfold renderMark. fold known. split.
  - destruct (find _ known) as [d|] eqn:Hfind.
    + apply find_some in Hfind. destruct Hfind as [Hin Hvalue].
      apply String.eqb_eq in Hvalue.
      split.
      * destruct (has_custom_render d); discriminate.
      * intro Hnone. exfalso. exact (Hnone d Hin Hvalue).
    + split; [|reflexivity].
      intros _ d Hin Hvalue.
      pose proof (find_none _ _ Hfind d Hin) as Hno. simpl in Hno.
      apply String.eqb_neq in Hno. contradiction.
  - intros pre d post Hsplit Hpre Hd.
    rewrite Hsplit, find_first_match; [reflexivity| |].
    + intros y Hy. apply String.eqb_neq. apply Hpre. exact Hy.
    + apply String.eqb_eq. exact Hd.
Qed.

Lemma renderMark_first_decorator_witness :
  renderMark (Fixture.withMarkers []) {| mark_type := "underline" |} = NoMark /\
  renderMark (Fixture.withMarkers []) {| mark_type := "em" |} = GenericDecorator.
Proof.
  split.
  - apply (proj1 (renderMark_first_decorator (Fixture.withMarkers [])
                    {| mark_type := "underline" |})).
    intros d [<-|[<-|[]]]; discriminate.
  - refine (proj2 (renderMark_first_decorator (Fixture.withMarkers [])
                     {| mark_type := "em" |})
                  [ {| title := "Strong"; decorator_value := "strong";
                       has_custom_render := false |} ]
                  {| title := "Emphasis"; decorator_value := "em";
                     has_custom_render := false |}
                  [] eq_refl _ eq_refl).
    intros x [<-|[]]. discriminate.
Defined.

Lemma hasMarkers_spec (this : Instance) :
  hasMarkers this = true <->
  exists m, In m (markers (props this)) /\ marker_path m <> [].
Proof.
  unfold hasMarkers. split.
  - intro H. apply Nat.ltb_lt in H.
    destruct (filter _ (markers (props this))) as [|m rest] eqn:Hf;
      [simpl in H; lia|].
    assert (Hin : In m (filter (fun marker => Nat.ltb 0 (length (marker_path marker)))
                               (markers (props this))))
      by (rewrite Hf; left; reflexivity).
    apply filter_In in Hin. destruct Hin as [Hin Hlen].
    exists m. split; [exact Hin|].
    intro Hnil. rewrite Hnil in Hlen. discriminate Hlen.
  - intros (m & Hin & Hne).
    assert (Hfiltered :
              In m (filter (fun marker => Nat.ltb 0 (length (marker_path marker)))
                           (markers (props this)))).
    { apply filter_In. split; [exact Hin|].
      destruct (marker_path m); [contradiction | reflexivity]. }
    apply Nat.ltb_lt.
    destruct (filter _ (markers (props this))); [destruct Hfiltered | simpl; lia].
Qed.

(** X13.  With class names that are not empty, the root element always has
    the root class first, then the block-extras class exactly when the
    [renderBlockActions] prop is there or some marker has a path that is not
    empty (markers with an empty path alone do not count), then the
    fullscreen class exactly when the component is fullscreen. *)
Theorem classNames_block_extras :
  forall (styles : Css.Styles) (hooks : RenderHooks) (this : Instance),
    Css.root styles <> "" ->
    Css.hasBlockExtras styles <> "" ->
    Css.fullscreen styles <> "" ->
    let extras :=
      renderBlockActions hooks = true \/
      exists m, In m (markers (props this)) /\ marker_path m <> [] in
    let fullscreenClass :=
      if fullscreen (props this) then [Css.fullscreen styles] else [] in
    (extras ->
     classNames styles hooks this
     = Css.root styles :: Css.hasBlockExtras styles :: fullscreenClass) /\
    (~ extras -> classNames styles hooks this = Css.root styles :: fullscreenClass).
Proof.
  intros styles hooks this Hroot Hextras Hfull extras fullscreenClass.
  apply String.eqb_neq in Hroot, Hextras, Hfull.
  assert (Hcond : renderBlockActions hooks || hasMarkers this = true <-> extras).
  { unfold extras. rewrite orb_true_iff, hasMarkers_spec. reflexivity. }
  unfold classNames, fullscreenClass, filterBoolean. simpl. rewrite Hroot.
  split; intro H.
  - apply Hcond in H. rewrite H, Hextras.
    destruct (fullscreen (props this)); [rewrite Hfull|]; reflexivity.
  - destruct (renderBlockActions hooks || hasMarkers this) eqn:Hc.
    + exfalso. apply H. apply Hcond. reflexivity.
    + destruct (fullscreen (props this)); [rewrite Hfull|]; reflexivity.
Qed.

Lemma classNames_block_extras_witness :
  classNames FixtureEvents.styles FixtureEvents.noHooks
             (Fixture.withMarkers [Fixture.markerAt [KeySeg "B"]])
  = ["root"; "hasBlockExtras"] /\
  classNames FixtureEvents.styles FixtureEvents.noHooks
             (Fixture.withMarkers [Fixture.markerAt []])
  = ["root"].
Proof.
  split.
  - apply (proj1 (classNames_block_extras FixtureEvents.styles FixtureEvents.noHooks
                    (Fixture.withMarkers [Fixture.markerAt [KeySeg "B"]])
                    ltac:(discriminate) ltac:(discriminate) ltac:(discriminate))).
    right. exists (Fixture.markerAt [KeySeg "B"]).
    split; [left; reflexivity | discriminate].
  - apply (proj2 (classNames_block_extras FixtureEvents.styles FixtureEvents.noHooks
                    (Fixture.withMarkers [Fixture.markerAt []])
                    ltac:(discriminate) ltac:(discriminate) ltac:(discriminate))).
    intros [H | (m & [<-|[]] & Hne)]; [discriminate H | apply Hne; reflexivity].
Defined.

(** X14.  A node whose type is neither [contentBlock] nor [span] is always
    rendered, without an error, as an object view of that node whose
    selection state is [isFocused]: with the inline class and a type looked
    up among the inline object types when the node is an inline, with the
    block class and a type looked up among the block object types otherwise.
    A type name the schema does not know leaves the type undefined. *)
Theorem renderNode_object_node :
  forall (JsonNode : Type) (toJSON : SlateNode -> JsonNode)
         (editorValueToBlocks : list JsonNode -> SchemaType -> list FormBuilderValue)
         (this : Instance) (p : SlateComponentProps),
    type (node p) <> "contentBlock" ->
    type (node p) <> "span" ->
    let known :=
      if ObjectKind_eqb (object (node p)) inline
      then inlineObjects (types (blockContentFeatures (props this)))
      else blockObjects (types (blockContentFeatures (props this))) in
    exists objectType,
      renderNode JsonNode toJSON editorValueToBlocks this p
      = Ok (ObjectView
              (if ObjectKind_eqb (object (node p)) inline
               then InlineObject else BlockObject)
              (isFocused p) (markers_by_key this (node p)) (node p) objectType) /\
      (forall t, objectType = Some t -> In t known /\ name t = type (node p)) /\
      (objectType = None <-> forall t, In t known -> name t <> type (node p)).
Proof.
  intros JsonNode toJSON conv this p Hblock Hspan known.
  apply String.eqb_neq in Hblock, Hspan.
  exists (find (fun memberType => String.eqb (name memberType) (type (node p))) known).
  split; [|split].
  - unfold renderNode, attached_markers, known. rewrite Hblock, Hspan. simpl.
    destruct (ObjectKind_eqb (object (node p)) inline); reflexivity.
  - intros t Hfind. apply find_some in Hfind. destruct Hfind as [Hin Hname].
    apply String.eqb_eq in Hname. auto.
  - split.
    + intros Hnone t Hin Hname.
      pose proof (find_none _ _ Hnone t Hin) as Hno. simpl in Hno.
      apply String.eqb_neq in Hno. contradiction.
    + intro Hall.
      destruct (find _ known) as [t|] eqn:Hfind; [|reflexivity].
      apply find_some in Hfind. destruct Hfind as [Hin Hname].
      apply String.eqb_eq in Hname. exfalso. exact (Hall t Hin Hname).
Qed.

Lemma renderNode_object_node_witness :
  renderNode string key Fixture.convert (Fixture.withMarkers [])
             (Fixture.rendering Fixture.imageI1)
  = Ok (ObjectView InlineObject false [] Fixture.imageI1 (Some {| name := "image" |})).
Proof.
  destruct (renderNode_object_node string key Fixture.convert (Fixture.withMarkers [])
              (Fixture.rendering Fixture.imageI1)
              ltac:(discriminate) ltac:(discriminate))
    as (objectType & Hrendered & _ & _).
  rewrite Hrendered. vm_compute in Hrendered. inversion Hrendered. reflexivity.
Defined.

(** ** Markers and exceptions in [renderNode] *)

Lemma targets_annotation_throws_TypeError (parent : option SlateNode) (a : Annotation)
    (m : Marker) (e : JsError) :
  targets_annotation parent a m = Throw e -> e = TypeError.
Proof.
  unfold targets_annotation, key_of, at_index.
  destruct (marker_path m) as [|s0 [|s1 [|s2 rest]]]; destruct parent as [b|]; simpl;
    repeat match goal with
           | |- context [if ?c then _ else _] => destruct c; simpl
           end;
    intro H; inversion H; reflexivity.
Qed.

Lemma filterR_throws {A : Type} (p : A -> result bool) (err : JsError) (xs : list A) :
  (forall x e, p x = Throw e -> e = err) ->
  forall m, In m xs -> p m = Throw err -> filterR p xs = Throw err.
Proof.
  intros Honly m. induction xs as [|x xs IH]; simpl; intros Hin Hm; [destruct Hin|].
  destruct (p x) as [keep|e] eqn:Hx; simpl.
  - destruct Hin as [->|Hin]; [rewrite Hm in Hx; discriminate Hx|].
    rewrite (IH Hin Hm). reflexivity.
  - rewrite (Honly x e Hx). reflexivity.
Qed.

(** X15.  A marker with an empty path makes [renderNode] fail on every span
    that carries an annotation: the annotation test reads [path[0]._key] of
    each marker, so the call throws a TypeError and no element is returned. *)
Theorem renderNode_empty_marker_path_throws :
  forall (JsonNode : Type) (toJSON : SlateNode -> JsonNode)
         (editorValueToBlocks : list JsonNode -> SchemaType -> list FormBuilderValue)
         (this : Instance) (p : SlateComponentProps)
         (entry : string * Annotation) (others : list (string * Annotation))
         (m : Marker),
    type (node p) = "span" ->
    annotations (data (node p)) = Some (entry :: others) ->
    In m (markers (props this)) ->
    marker_path m = [] ->
    renderNode JsonNode toJSON editorValueToBlocks this p = Throw TypeError.
Proof.
  intros JsonNode toJSON conv this p [label a] others m Hspan Hanns Hin Hpath.
  unfold renderNode, attached_markers. rewrite Hspan, Hanns. simpl.
  rewrite (filterR_throws _ TypeError (markers (props this))
             (targets_annotation_throws_TypeError _ a) m Hin); [reflexivity|].
  unfold targets_annotation. rewrite Hpath. reflexivity.
Qed.

Lemma renderNode_empty_marker_path_throws_witness :
  renderNode string key Fixture.convert
    (Fixture.withMarkers [Fixture.markerAt [KeySeg "B"]; Fixture.markerAt []])
    (Fixture.rendering Fixture.spanS1)
  = Throw TypeError.
Proof.
  exact (renderNode_empty_marker_path_throws string key Fixture.convert
           (Fixture.withMarkers [Fixture.markerAt [KeySeg "B"]; Fixture.markerAt []])
           (Fixture.rendering Fixture.spanS1)
           ("link", Fixture.linkA) [] (Fixture.markerAt [])
           eq_refl eq_refl (or_intror (or_introl eq_refl)) eq_refl).
Defined.

Lemma targets_child_length (n : SlateNode) (m : Marker) :
  targets_child n m = true -> 3 <= length (marker_path m).
Proof.
  unfold targets_child, at_index.
  destruct (marker_path m) as [|s0 [|s1 [|s2 rest]]]; simpl;
    try discriminate; intros _; lia.
Qed.

Lemma targets_annotation_length (parent : option SlateNode) (a : Annotation) (m : Marker) :
  targets_annotation parent a m = Ok true -> 3 <= length (marker_path m).
Proof.
  unfold targets_annotation, at_index.
  destruct (marker_path m) as [|s0 [|s1 [|s2 rest]]]; simpl;
    intro H; try lia; revert H;
    destruct parent as [b|]; simpl;
    repeat match goal with
           | |- context [if ?c then _ else _] => destruct c; simpl
           end;
    discriminate.
Qed.

(** X16.  Whatever element [renderNode] returns, the markers on it come from
    the [markers] prop and each has a path of at least three segments; a node
    that is neither an inline nor a span never gets a marker. *)
Theorem renderNode_attached_markers_invariant :
  forall (JsonNode : Type) (toJSON : SlateNode -> JsonNode)
         (editorValueToBlocks : list JsonNode -> SchemaType -> list FormBuilderValue)
         (this : Instance) (p : SlateComponentProps) (v : View),
    renderNode JsonNode toJSON editorValueToBlocks this p = Ok v ->
    forall m, In m (view_markers v) ->
      In m (markers (props this)) /\
      3 <= length (marker_path m) /\
      (object (node p) = inline \/ type (node p) = "span").
Proof.
  intros JsonNode toJSON conv this p v Hv m Hin.
  apply renderNode_markers in Hv. unfold attached_markers, markers_by_key in Hv.
  destruct (String.eqb (type (node p)) "span") eqn:Hspan.
  - apply String.eqb_eq in Hspan.
    destruct (annotations (data (node p))) as [anns|].
    + apply (add_annotation_markers_In _ _ _ _ _ Hv) in Hin.
      destruct Hin as [Hin|(entry & _ & Hall & Ht)].
      * apply filter_In in Hin. destruct Hin as [Hall Ht].
        split; [exact Hall | split; [exact (targets_child_length _ _ Ht) | auto]].
      * split; [exact Hall | split; [exact (targets_annotation_length _ _ _ Ht) | auto]].
    + inversion Hv as [Heq]. rewrite <- Heq in Hin.
      apply filter_In in Hin. destruct Hin as [Hall Ht].
      split; [exact Hall | split; [exact (targets_child_length _ _ Ht) | auto]].
  - inversion Hv as [Heq]. rewrite <- Heq in Hin.
    destruct (ObjectKind_eqb (object (node p)) inline) eqn:Hinline; [|destruct Hin].
    apply ObjectKind_eqb_eq in Hinline.
    apply filter_In in Hin. destruct Hin as [Hall Ht].
    split; [exact Hall | split; [exact (targets_child_length _ _ Ht) | auto]].
Qed.

Lemma renderNode_attached_markers_invariant_witness :
  let onChild := Fixture.markerAt [KeySeg "B"; FieldSeg "children"; KeySeg "I1"] in
  In onChild [Fixture.markerAt [KeySeg "B"]; onChild] /\
  3 <= length (marker_path onChild) /\
  (object Fixture.imageI1 = inline \/ type Fixture.imageI1 = "span").
Proof.
  intro onChild.
  exact (renderNode_attached_markers_invariant string key Fixture.convert
           (Fixture.withMarkers [Fixture.markerAt [KeySeg "B"]; onChild])
           (Fixture.rendering Fixture.imageI1)
           (ObjectView InlineObject false [onChild] Fixture.imageI1
                       (Some {| name := "image" |}))
           eq_refl onChild (or_introl eq_refl)).
Defined.

(** X17.  A span without annotations, or with an empty annotations object,
    is always rendered, whatever the markers and whether or not its parent is
    in the document: as a span view with the schema's span type and, in the
    order of the [markers] prop, exactly the markers whose third path segment
    is a key reference to the span's [_key] (on a span without [_key], a
    string that is not empty). *)
Theorem renderNode_span_without_annotations :
  forall (JsonNode : Type) (toJSON : SlateNode -> JsonNode)
         (editorValueToBlocks : list JsonNode -> SchemaType -> list FormBuilderValue)
         (this : Instance) (p : SlateComponentProps),
    type (node p) = "span" ->
    annotations (data (node p)) = None \/ annotations (data (node p)) = Some [] ->
    renderNode JsonNode toJSON editorValueToBlocks this p
    = Ok (Span
            (filter
               (fun m =>
                  match nth_error (marker_path m) 2, data_key (data (node p)) with
                  | Some (KeySeg k), Some own => String.eqb k own
                  | Some (FieldSeg field), None => negb (String.eqb field "")
                  | _, _ => false
                  end)
               (markers (props this)))
            (node p)
            (span (types (blockContentFeatures (props this))))).
Proof.
  intros JsonNode toJSON conv this p Hspan Hanns.
  assert (Hfilter :
            filter (targets_child (node p)) (markers (props this))
            = filter
                (fun m =>
                   match nth_error (marker_path m) 2, data_key (data (node p)) with
                   | Some (KeySeg k), Some own => String.eqb k own
                   | Some (FieldSeg field), None => negb (String.eqb field "")
                   | _, _ => false
                   end)
                (markers (props this))).
  { apply filter_ext. intro m. unfold targets_child, at_index.
    destruct (nth_error (marker_path m) 2) as [[k|field]|];
      destruct (data_key (data (node p))) as [own|]; simpl;
      rewrite ?andb_false_r, ?andb_true_r; reflexivity. }
  unfold renderNode, attached_markers. rewrite Hspan.
  destruct Hanns as [-> | ->]; simpl; rewrite Hfilter; reflexivity.
Qed.

Lemma renderNode_span_without_annotations_witness :
  let onChild := Fixture.markerAt [KeySeg "B2"; FieldSeg "children"; KeySeg "S3"] in
  let onSibling := Fixture.markerAt [KeySeg "B2"; FieldSeg "children"; KeySeg "T3"] in
  let onField := Fixture.markerAt [KeySeg "B2"; FieldSeg "children"; FieldSeg "S3"] in
  let tooShort := Fixture.markerAt [KeySeg "S3"] in
  renderNode string key Fixture.convert
    (Fixture.withMarkers [Fixture.markerAt []; onSibling; onChild; onField; tooShort])
    (Fixture.rendering Fixture.spanS3)
  = Ok (Span [onChild] Fixture.spanS3 {| name := "span" |}).
Proof.
  intros onChild onSibling onField tooShort.
  exact (renderNode_span_without_annotations string key Fixture.convert
           (Fixture.withMarkers [Fixture.markerAt []; onSibling; onChild; onField; tooShort])
           (Fixture.rendering Fixture.spanS3) eq_refl (or_introl eq_refl)).
Defined.

(** ** How the parts fit together *)

(** With an interceptor configured, the trace of [handlePaste] starts with
    the loading signal and the call of the interceptor on [pasteArgs], and
    the interceptor is not called again. *)
Lemma handlePaste_intercepts_once (part : option PasteInterceptor) (this : Instance)
    (event : SyntheticEvent) (ed : SlateEditor) (f : PasteInterceptor) :
  pasteInterceptor part this = Some f ->
  exists rest,
    trace (handlePaste part this event ed)
    = OnLoading {| paste := Some "start" |}
        :: InterceptPaste (pasteArgs this event ed) :: rest /\
    forall args, ~ In (InterceptPaste args) rest.
Proof.
  intro Hconf. unfold handlePaste. rewrite Hconf. run_method.
  destruct (f (pasteArgs this event ed)) as [[[blocks|] pth]|]; simpl;
    eexists; (split; [reflexivity|]);
    intros args Hin; simpl in Hin;
    repeat match goal with
           | H : _ \/ _ |- _ => destruct H
           | H : False |- _ => destruct H
           | H : _ = InterceptPaste _ |- _ => discriminate H
           end.
Qed.

(** X18.  The path [handlePaste] hands to the interceptor leads back to the
    selection.  With an interceptor configured, a block focused and the focus
    in an inline or a text, [handlePaste] calls the interceptor exactly once,
    with the path [[{_key: block}, "children", {_key: focus key}]]; and any
    mounted component given that path as its focus path scrolls into view the
    node of its document that has the key of the selection focus. *)
Theorem paste_path_resolves_to_selection_focus :
  forall (part : option PasteInterceptor) (pasting : Instance)
         (event : SyntheticEvent) (pasteEditor : SlateEditor)
         (interceptor : PasteInterceptor) (fb : SlateNode),
    pasteInterceptor part pasting = Some interceptor ->
    focusBlock (value pasteEditor) = Some fb ->
    focusInline (value pasteEditor) <> None \/ focusText (value pasteEditor) <> None ->
    let focusKey := point_key (focus (selection (value pasteEditor))) in
    exists args,
      In (InterceptPaste args) (trace (handlePaste part pasting event pasteEditor)) /\
      (forall other,
          In (InterceptPaste other) (trace (handlePaste part pasting event pasteEditor)) ->
          other = args) /\
      args_path args = [KeySeg (key fb); FieldSeg "children"; KeySeg focusKey] /\
      forall (this : Instance) (mountedEditor : SlateEditor) (fp : PathObject)
             (target : SlateNode),
        getEditor this = Some mountedEditor ->
        focusPath (props this) = Some fp ->
        segments fp = args_path args ->
        getDescendant (value_document (editorValue (props this))) (Some focusKey)
        = Some target ->
        trackFocusPath this = ([ScrollIntoView target], Ok tt).
Proof.
  intros part pasting event pasteEditor interceptor fb Hconf Hfb Hfocus focusKey.
  destruct (handlePaste_intercepts_once part pasting event pasteEditor interceptor Hconf)
    as (rest & Htrace & Honce).
  assert (Hpath : args_path (pasteArgs pasting event pasteEditor)
                  = [KeySeg (key fb); FieldSeg "children"; KeySeg focusKey]).
  { unfold pasteArgs, selectionPath. simpl. rewrite Hfb.
    destruct (focusInline (value pasteEditor)), (focusText (value pasteEditor));
      try reflexivity.
    destruct Hfocus as [H|H]; contradiction. }
  exists (pasteArgs pasting event pasteEditor).
  split; [rewrite Htrace; right; left; reflexivity|].
  split; [|split; [exact Hpath|]].
  - intros other Hin. rewrite Htrace in Hin.
    destruct Hin as [Hin|[Hin|Hin]].
    + discriminate Hin.
    + inversion Hin. reflexivity.
    + exfalso. exact (Honce other Hin).
  - intros this mountedEditor fp target Hed Hfp Hsegs Htarget.
    rewrite Hpath in Hsegs.
    assert (Hsingle :
              match focusBlock (editorValue (props this)) with
              | Some b =>
                  path_eqb [KeySeg (key fb); FieldSeg "children"; KeySeg focusKey]
                           [KeySeg (key b)]
              | None => false
              end = false).
    { destruct (focusBlock (editorValue (props this)));
        [apply three_segments_not_single | reflexivity]. }
    unfold trackFocusPath. rewrite Hed, Hfp, Hsegs, Hsingle.
    run_method_on_document. rewrite Htarget. reflexivity.
Qed.

Lemma paste_path_resolves_to_selection_focus_witness :
  let silent : PasteInterceptor := fun _ => None in
  exists args,
    In (InterceptPaste args)
       (trace (handlePaste None (Fixture.pasting (Some silent))
                           (ClipboardEvent "text") Fixture.slate)) /\
    args_path args = [KeySeg "B"; FieldSeg "children"; KeySeg "T1"] /\
    trackFocusPath (Fixture.focusedOn 1 [KeySeg "B"; FieldSeg "children"; KeySeg "T1"])
    = ([ScrollIntoView Fixture.textT1], Ok tt).
Proof.
  intro silent.
  assert (Hconf : pasteInterceptor None (Fixture.pasting (Some silent)) = Some silent)
    by reflexivity.
  assert (Hfb : focusBlock (value Fixture.slate) = Some Fixture.blockB) by reflexivity.
  assert (Hfocus : focusInline (value Fixture.slate) <> None
                   \/ focusText (value Fixture.slate) <> None)
    by (left; discriminate).
  destruct (paste_path_resolves_to_selection_focus None (Fixture.pasting (Some silent))
              (ClipboardEvent "text") Fixture.slate silent Fixture.blockB
              Hconf Hfb Hfocus)
    as (args & Hcalled & _ & Hpath & Hresolves).
  exists args. split; [exact Hcalled | split; [exact Hpath|]].
  apply (Hresolves (Fixture.focusedOn 1 [KeySeg "B"; FieldSeg "children"; KeySeg "T1"])
                   Fixture.slate
                   {| identity := 1;
                      segments := [KeySeg "B"; FieldSeg "children"; KeySeg "T1"] |}
                   Fixture.textT1).
  - reflexivity.
  - reflexivity.
  - rewrite Hpath. reflexivity.
  - reflexivity.
Defined.

